(** * benchmark_analysis.py: serial against parallel benchmark driver

    A shallow embedding of [src/benchmark_analysis.py] and the properties
    of its metric extractor, its isolated run executor, its per-sample
    runner and its size-bucket report.

    Python values are modelled as the script has them: a [str] is a list
    of code points, a [float] is an IEEE binary64 number (Rocq's primitive
    floats), the result dictionaries are records and tagged unions, and an
    exception is the [Raise] branch of a result type.  The file system,
    the external analysis tool and the console are threaded through a
    state and exception monad. *)

From Stdlib Require Import ZArith NArith List Bool Lia.
From Stdlib Require Import Strings.Ascii Strings.String.
From Stdlib Require Import Floats.
From Stdlib Require Import Sorted.
From stdpp Require Import gmap list.

Local Open Scope N_scope.

(** ** Python text *)

Module Py.

(** A character is a Unicode code point; a text is the list of its code
    points, which is what indexing, slicing and [in] work on. *)
Definition char := N.
Definition str := list char.

(** Source literals are written as Rocq strings, whose bytes are the UTF-8
    encoding of the literal; [lit] decodes them to code points. *)
Fixpoint utf8_decode (bs : list N) : str :=
  match bs with
  | [] => []
  | b :: t =>
    if b <? 128 then b :: utf8_decode t
    else if b <? 224 then
      match t with
      | c1 :: t1 => ((b - 192) * 64 + (c1 - 128)) :: utf8_decode t1
      | _ => []
      end
    else if b <? 240 then
      match t with
      | c1 :: c2 :: t2 =>
          (((b - 224) * 64 + (c1 - 128)) * 64 + (c2 - 128)) :: utf8_decode t2
      | _ => []
      end
    else
      match t with
      | c1 :: c2 :: c3 :: t3 =>
          ((((b - 240) * 64 + (c1 - 128)) * 64 + (c2 - 128)) * 64 + (c3 - 128))
            :: utf8_decode t3
      | _ => []
      end
  end.

Definition lit (s : string) : str :=
  utf8_decode (List.map N_of_ascii (list_ascii_of_string s)).

Definition NEWLINE : char := 10.
Definition COMMA : char := 44.
Definition POINT : char := 46.
Definition SLASH : char := 47.

(** [s.split(sep)] for a one-character separator: always at least one
    piece, an empty last piece when [s] ends with the separator. *)
Fixpoint split (sep : char) (s : str) : list str :=
  match s with
  | [] => [[]]
  | c :: s' =>
    if c =? sep then [] :: split sep s'
    else match split sep s' with
         | piece :: pieces => (c :: piece) :: pieces
         | [] => [[c]]
         end
  end.

Fixpoint startswith (s p : str) : bool :=
  match p, s with
  | [], _ => true
  | _ :: _, [] => false
  | a :: p', b :: s' => (a =? b) && startswith s' p'
  end.

(** [p in s]: [p] occurs in [s] as a contiguous run. *)
Fixpoint contains (s p : str) : bool :=
  startswith s p ||
  match s with
  | [] => false
  | _ :: s' => contains s' p
  end.

(** [s.replace(c, '')] for a one-character [c]. *)
Definition remove (c : char) (s : str) : str :=
  List.filter (fun x => negb (x =? c)) s.

Fixpoint take_while (p : char -> bool) (s : str) : str :=
  match s with
  | [] => []
  | c :: s' => if p c then c :: take_while p s' else []
  end.

Fixpoint drop_while (p : char -> bool) (s : str) : str :=
  match s with
  | [] => []
  | c :: s' => if p c then drop_while p s' else s
  end.

Definition endswith (s p : str) : bool := startswith (rev s) (rev p).

(** Code-point order, the order of [str.__lt__]. *)
Fixpoint str_leb (a b : str) : bool :=
  match a, b with
  | [], _ => true
  | _ :: _, [] => false
  | x :: a', y :: b' => (x <? y) || ((x =? y) && str_leb a' b')
  end.

(** Exceptions the script can meet.  Each carries what its text is built
    from. *)
Inductive exn :=
  | ValueError (literal : str)
  | TypeError
  | ZeroDivisionError
  | TimeoutExpired
  | CalledProcessError (returncode : Z)
  | OSError (detail : str)
  | FileNotFoundError (path : list str)
  | IsADirectoryError (path : list str).

Inductive result (A : Type) :=
  | Ok (a : A)
  | Raise (e : exn).
Arguments Ok {A} a.
Arguments Raise {A} e.

Definition rbind {A B} (r : result A) (k : A -> result B) : result B :=
  match r with
  | Ok a => k a
  | Raise e => Raise e
  end.

End Py.
Export Py.

(** ** Python numbers *)

Module PyNum.

Local Open Scope Z_scope.

(** The binary64 number nearest to [num / den] (ties to even), for
    [0 <= num] and [0 < den]: the quotient is taken with enough bits and
    its remainder decides the rounding, as in the division of the
    binary64 specification. *)
Definition float_of_ratio (num den : Z) : float :=
  let '(q, e, l) := SFdiv_core_binary prec emax num 0 den 0 in
  SF2Prim (binary_round_aux prec emax false q e l).

(** [float(s)] for a decimal literal with mantissa digits [mant] and
    [scale] digits after the point: correctly rounded, [inf] when too
    large, [0.0] when too small. *)
Definition float_of_decimal (mant : N) (scale : nat) : float :=
  float_of_ratio (Z.of_N mant) (10 ^ Z.of_nat scale).

(** [float(n)] for a list length. *)
Definition float_of_len (n : nat) : float := float_of_ratio (Z.of_nat n) 1.

(** [bool(x)] of a float: everything but the two zeros. *)
Definition float_truthy (x : float) : bool := negb (x =? 0)%float.

(** The value held by a ['time'] or ['speed'] entry: a float or [None]. *)
Definition metric := option float.

Definition truthy (m : metric) : bool :=
  match m with
  | None => false
  | Some x => float_truthy x
  end.

(** [a / b] on two such entries. *)
Definition truediv (a b : metric) : result float :=
  match a, b with
  | Some x, Some y =>
      if (y =? 0)%float then Raise ZeroDivisionError else Ok (x / y)%float
  | _, _ => Raise TypeError
  end.

(** [f"{v:.2f}"] needs a number: [None] has no such format. *)
Definition format_2f (m : metric) : result float :=
  match m with
  | Some x => Ok x
  | None => Raise TypeError
  end.

(** The value held by a ['speedup'] entry: a float quotient, or the [int]
    literal [0] of the conditional expression. *)
Inductive number :=
  | Int0
  | Flt (x : float).

(** [a + b]; an [int] operand is converted to [float] first. *)
Definition add (a b : number) : number :=
  match a, b with
  | Int0, Int0 => Int0
  | Int0, Flt y => Flt (0 + y)%float
  | Flt x, Int0 => Flt (x + 0)%float
  | Flt x, Flt y => Flt (x + y)%float
  end.

(** [sum(xs)]: accumulation from the [int] [0], left to right.  (CPython
    from 3.12 on compensates the rounding of a float sum, which can change
    the last bits of a sum of several floats; nothing below depends on
    them.) *)
Definition sum (xs : list number) : number := fold_left add xs Int0.

(** [x / n] for a length [n]. *)
Definition div_len (x : number) (n : nat) : result float :=
  match n with
  | O => Raise ZeroDivisionError
  | S _ =>
      match x with
      | Int0 => Ok 0%float
      | Flt a => Ok (a / float_of_len n)%float
      end
  end.

(** A specification-level float that is not below zero: its sign bit, if
    it has one, is clear. *)
Definition sf_nonneg (x : spec_float) : Prop :=
  match x with
  | S754_zero _ | S754_nan => True
  | S754_infinity s | S754_finite s _ _ => s = false
  end.

End PyNum.
Export PyNum.


(** ** The script *)

(** A path is the list of its components below the root. *)
Definition path := list str.

(** What [stat] reports of a directory entry. *)
Record node := { is_dir : bool; st_size : N }.

(** How [subprocess.check_output] can leave the external tool: it exited
    with a status and its combined output, it outlived the time limit, or
    it could not be started. *)
Inductive proc_outcome :=
  | Exited (returncode : Z) (output : str)
  | Expired
  | NotStarted (detail : str).

(** The ['error'] entry: the literal ['Timeout'] or [str(e)]. *)
Inductive error_text :=
  | Timeout
  | Text (e : exn).

(** The dictionary [run_benchmark] returns: the keys ['time'], ['speed']
    and ['output'], or the key ['error'] alone. *)
Inductive run_result :=
  | Metrics (time speed : metric) (output : str)
  | Error (error : error_text).

(** One entry of [results]. *)
Record comparison := {
  name : str;
  size_mb : N;
  serial_time : metric;
  parallel_time : metric;
  serial_speed : metric;
  parallel_speed : metric;
  speedup : number
}.

Inductive bucket := Small | Medium | Large.

(** The lines [main] prints, by the values they show. *)
Inductive line :=
  | Banner
  | Rule (heavy : bool)
  | Found (count : nat)
  | Blank
  | Testing (idx total : nat) (sample : str) (filesize_mb : N)
  | ModeStart (serial : bool)
  | Failure (error : error_text)
  | Success (time speed : float)
  | SpeedupLine (speedup : number)
  | TableTitle
  | TableHead
  | Row (sample : str) (mb : N) (serial parallel : float) (speedup : number)
  | AnalysisTitle
  | BucketLine (b : bucket) (count : nat) (avg_speedup : float)
  | Finished.

(** What the script does to the outside, in order. *)
Inductive event :=
  | Print (l : line)
  | Run (cmd : list str)
  | Sleep (seconds : N).

Definition SAMPLES_DIR : path :=
  List.map lit ["Users"; "Sakuzy"; "code"; "rust"; "MacinMeter-DynamicRange-Tool";
                "benchmark_samples"]%string.

Definition EXE_PATH : path :=
  List.map lit ["Users"; "Sakuzy"; "code"; "rust"; "MacinMeter-DynamicRange-Tool";
                "target"; "release"; "MacinMeter-DynamicRange-Tool-foo_dr"]%string.

(** [str(p)] of an absolute path. *)
Definition path_str (p : path) : str :=
  match p with
  | [] => [SLASH]
  | _ => List.concat (List.map (fun c => SLASH :: c) p)
  end.

(** [p.name]: the last component. *)
Definition path_name (p : path) : str := List.last p [].

Fixpoint path_leb (a b : path) : bool :=
  match a, b with
  | [], _ => true
  | _ :: _, [] => false
  | x :: a', y :: b' =>
      if str_leb x y then (if str_leb y x then path_leb a' b' else true) else false
  end.

Fixpoint insert_sorted (p : path) (l : list path) : list path :=
  match l with
  | [] => [p]
  | q :: l' => if path_leb p q then p :: l else q :: insert_sorted p l'
  end.

(** [sorted(ps)] on paths. *)
Definition sorted (ps : list path) : list path := fold_right insert_sorted [] ps.

(** [d] is a proper or improper ancestor of [p]. *)
Fixpoint under (d p : path) : bool :=
  match d, p with
  | [], _ => true
  | _ :: _, [] => false
  | x :: d', y :: p' => if decide (x = y) then under d' p' else false
  end.

(** [p] is an entry of directory [d] whose name matches [*.flac]. *)
Definition flac_child (d p : path) : bool :=
  (length p =? S (length d))%nat && under d p && endswith (path_name p) (lit ".flac").

Section Script.

(** What the script takes from its runtime and its surroundings:
    - [decimal c] is the value of [c] when it is a Unicode decimal digit,
      the class [\d] of [re] and the digits [float] accepts;
    - [env] is the state of everything outside the script, and [tool cmd]
      runs the external command under the time limit: it may change that
      state and the files, and ends in one of the three outcomes;
    - [mkdtemp] picks the name of a new scratch directory (the runtime
      takes a name that is not in use; no property below relies on it);
    - [copy_error e src dst] is the exception, if any, with which the
      operating system refuses the copy of the regular file [src] to
      [dst] (no permission to read it, no space left, ...). *)
Variable decimal : char -> option N.
Variable env : Type.
Variable tool : list str -> env -> gmap path node -> proc_outcome * env * gmap path node.
Variable mkdtemp : env -> gmap path node -> path * env.
Variable copy_error : env -> path -> path -> option exn.

(** *** extract_metric *)

(** The class [[\d.]]. *)
Definition number_char (c : char) : bool :=
  match decimal c with
  | Some _ => true
  | None => c =? POINT
  end.

(** [re.search(r'[\d.]+', s)]: the leftmost run of the class, as long as
    it goes; [None] when [s] has no character of the class. *)
Definition search_number (s : str) : option str :=
  match drop_while (fun c => negb (number_char c)) s with
  | [] => None
  | rest => Some (take_while number_char rest)
  end.

(** The digits and points of a literal read so far. *)
Record literal := { mant : N; digits : nat; points : nat; scale : nat }.

Fixpoint read_literal (tok : str) (acc : literal) : option literal :=
  match tok with
  | [] => Some acc
  | c :: tok' =>
    if c =? POINT then
      read_literal tok'
        {| mant := mant acc; digits := digits acc;
           points := S (points acc); scale := scale acc |}
    else
      match decimal c with
      | Some d =>
        read_literal tok'
          {| mant := 10 * mant acc + d; digits := S (digits acc);
             points := points acc;
             scale := match points acc with O => scale acc | S _ => S (scale acc) end |}
      | None => None
      end
  end.

(** [float(tok)] on what [search_number] returns, a run of decimal digits
    and points: a number when the run has a digit and at most one point,
    [ValueError] otherwise.  (Texts with other characters never reach
    [float] in this script; they are sent to [ValueError] here.) *)
Definition float_of_str (tok : str) : result float :=
  match read_literal tok {| mant := 0; digits := 0; points := 0; scale := 0 |} with
  | Some l =>
    match digits l, points l with
    | S _, (0 | 1)%nat => Ok (float_of_decimal (mant l) (scale l))
    | _, _ => Raise (ValueError tok)
    end
  | None => Raise (ValueError tok)
  end.

(** The [for] loop of [extract_metric] over the lines still to visit. *)
Fixpoint scan_lines (lines : list str) (metric_name : str) : result metric :=
  match lines with
  | [] => Ok None
  | line :: rest =>
    if contains line metric_name then
      match search_number (remove COMMA line) with
      | Some tok => rbind (float_of_str tok) (fun x => Ok (Some x))
      | None => scan_lines rest metric_name
      end
    else scan_lines rest metric_name
  end.

Definition extract_metric (output metric_name : str) : result metric :=
  scan_lines (split NEWLINE output) metric_name.

(** *** The state and exception monad *)

Record world := { files : gmap path node; outside : env; trace : list event }.

Definition M (A : Type) : Type := world -> result A * world.

Definition ret {A} (a : A) : M A := fun w => (Ok a, w).

Definition bind {A B} (m : M A) (k : A -> M B) : M B :=
  fun w =>
    match m w with
    | (Ok a, w') => k a w'
    | (Raise e, w') => (Raise e, w')
    end.

Notation "'let!' x ':=' m 'in' k" := (bind m (fun x => k))
  (at level 10, x name, m at level 100, k at level 200).
Notation "m >>> k" := (bind m (fun _ => k))
  (at level 100, k at level 200, right associativity).

Definition lift {A} (r : result A) : M A := fun w => (r, w).

Definition emit (e : event) : M unit :=
  fun w => (Ok tt, {| files := files w; outside := outside w; trace := trace w ++ [e] |}).

Definition print (l : line) : M unit := emit (Print l).

(** [try: body except TimeoutExpired: h1 except Exception as e: h2 e]. *)
Definition try_except {A} (body : M A) (on_timeout : M A) (on_other : exn -> M A) : M A :=
  fun w =>
    match body w with
    | (Ok a, w') => (Ok a, w')
    | (Raise TimeoutExpired, w') => on_timeout w'
    | (Raise e, w') => on_other e w'
    end.

(** *** The file system and the external tool *)

(** [p.stat()]. *)
Definition stat (p : path) : M node :=
  fun w =>
    match files w !! p with
    | Some n => (Ok n, w)
    | None => (Raise (FileNotFoundError p), w)
    end.

(** [sorted(d.glob("*.flac"))]: the matching entries of [d]; nothing when
    [d] is not a directory. *)
Definition glob_flac (d : path) : M (list path) :=
  fun w =>
    match files w !! d with
    | Some {| is_dir := true |} =>
        (Ok (sorted (List.filter (flac_child d) (List.map fst (map_to_list (files w))))), w)
    | _ => (Ok [], w)
    end.

(** [shutil.copy2(src, dst)] to a new name [dst]: [src] has to be a
    regular file, and one that the operating system lets the script
    copy. *)
Definition copy2 (src dst : path) : M unit :=
  fun w =>
    match files w !! src with
    | None => (Raise (FileNotFoundError src), w)
    | Some n =>
      if is_dir n then (Raise (IsADirectoryError src), w)
      else
        match copy_error (outside w) src dst with
        | Some e => (Raise e, w)
        | None => (Ok tt, {| files := <[dst := n]> (files w); outside := outside w;
                             trace := trace w |})
        end
    end.

(** [subprocess.check_output(cmd, stderr=STDOUT, text=True, timeout=300)]. *)
Definition check_output (cmd : list str) : M str :=
  fun w =>
    let '(o, e', f') := tool cmd (outside w) (files w) in
    let w' := {| files := f'; outside := e'; trace := trace w ++ [Run cmd] |} in
    match o with
    | Exited 0 out => (Ok out, w')
    | Exited rc _ => (Raise (CalledProcessError rc), w')
    | Expired => (Raise TimeoutExpired, w')
    | NotStarted d => (Raise (OSError d), w')
    end.

(** Removal of [d] and of everything below it. *)
Definition rmtree (d : path) (f : gmap path node) : gmap path node :=
  filter (fun kv => under d (fst kv) = false) f.

(** [with tempfile.TemporaryDirectory() as tmpdir: body]: the directory is
    made, the body runs, and the directory is removed however the body
    ends. *)
Definition with_TemporaryDirectory {A} (body : path -> M A) : M A :=
  fun w =>
    let '(tmpdir, e1) := mkdtemp (outside w) (files w) in
    let w1 := {| files := <[tmpdir := {| is_dir := true; st_size := 0 |}]> (files w);
                 outside := e1; trace := trace w |} in
    let '(r, w2) := body tmpdir w1 in
    (r, {| files := rmtree tmpdir (files w2); outside := outside w2; trace := trace w2 |}).

(** *** run_benchmark *)

(** The command line: the executable, the scratch directory, and the
    flag of the serial mode. *)
Definition command (tmpdir : path) (serial : bool) : list str :=
  [path_str EXE_PATH; path_str tmpdir] ++ (if serial then [lit "--serial"] else []).

Definition run_benchmark (sample_path : path) (serial : bool) : M run_result :=
  with_TemporaryDirectory (fun tmpdir =>
    let dest := tmpdir ++ [path_name sample_path] in
    copy2 sample_path dest >>>
    let cmd := command tmpdir serial in
    try_except
      (let! output := check_output cmd in
       let! time_sec := lift (extract_metric output (lit "运行时间")) in
       let! speed_mbs := lift (extract_metric output (lit "处理速度")) in
       ret (Metrics time_sec speed_mbs (firstn 500 output)))
      (ret (Error Timeout))
      (fun e => ret (Error (Text e)))).

(** *** main *)

(** The conditional expression that computes the speed-up. *)
Definition speedup_of (serial_time parallel_time : metric) : result number :=
  if truthy parallel_time
  then rbind (truediv serial_time parallel_time) (fun x => Ok (Flt x))
  else Ok Int0.

(** [print(f"✓ ({r['time']:.2f}s, {r['speed']:.2f}MB/s)")]. *)
Definition print_success (time speed : metric) : M unit :=
  let! t := lift (format_2f time) in
  let! s := lift (format_2f speed) in
  print (Success t s).

(** One turn of the loop over the samples: the new value of [results]. *)
Definition sample_turn (total idx : nat) (sample : path) (results : list comparison)
  : M (list comparison) :=
  let! st := stat sample in
  let filesize_mb := st_size st / (1024 * 1024) in
  print (Testing idx total (path_name sample) filesize_mb) >>>
  print (Rule false) >>>
  print (ModeStart true) >>>
  let! serial_result := run_benchmark sample true in
  match serial_result with
  | Error e => print (Failure e) >>> ret results
  | Metrics s_time s_speed _ =>
    print_success s_time s_speed >>>
    emit (Sleep 2) >>>
    print (ModeStart false) >>>
    let! parallel_result := run_benchmark sample false in
    match parallel_result with
    | Error e => print (Failure e) >>> ret results
    | Metrics p_time p_speed _ =>
      print_success p_time p_speed >>>
      let! speedup := lift (speedup_of s_time p_time) in
      print (SpeedupLine speedup) >>>
      print Blank >>>
      ret (results ++ [{| name := path_name sample; size_mb := filesize_mb;
                          serial_time := s_time; parallel_time := p_time;
                          serial_speed := s_speed; parallel_speed := p_speed;
                          speedup := speedup |}])
    end
  end.

(** [for idx, sample in enumerate(samples, 1): ...]. *)
Fixpoint sample_loop (total idx : nat) (samples : list path) (results : list comparison)
  : M (list comparison) :=
  match samples with
  | [] => ret results
  | sample :: rest =>
    let! results' := sample_turn total idx sample results in
    sample_loop total (S idx) rest results'
  end.

(** [for r in results: print(...)], the table. *)
Fixpoint print_rows (results : list comparison) : M unit :=
  match results with
  | [] => ret tt
  | r :: rest =>
    let! s := lift (format_2f (serial_time r)) in
    let! p := lift (format_2f (parallel_time r)) in
    print (Row (name r) (size_mb r) s p (speedup r)) >>>
    print_rows rest
  end.

(** [if members: avg = sum(...) / len(members); print(...)]. *)
Definition print_bucket (b : bucket) (members : list comparison) : M unit :=
  match members with
  | [] => ret tt
  | _ :: _ =>
    let! avg := lift (div_len (sum (List.map speedup members)) (length members)) in
    print (BucketLine b (length members) avg)
  end.

(** The size-bucket report that ends [main]. *)
Definition analysis (results : list comparison) : M unit :=
  let small := List.filter (fun r => size_mb r <? 100) results in
  let medium := List.filter (fun r => (100 <=? size_mb r) && (size_mb r <? 400)) results in
  let large := List.filter (fun r => 400 <=? size_mb r) results in
  print_bucket Small small >>>
  print_bucket Medium medium >>>
  print_bucket Large large.

Definition main : M unit :=
  print Banner >>>
  print (Rule true) >>>
  let! samples := glob_flac SAMPLES_DIR in
  print (Found (length samples)) >>>
  print Blank >>>
  let! results := sample_loop (length samples) 1 samples [] in
  print (Rule true) >>>
  print TableTitle >>>
  print Blank >>>
  print TableHead >>>
  print (Rule false) >>>
  print_rows results >>>
  print Blank >>>
  print (Rule true) >>>
  print AnalysisTitle >>>
  print Blank >>>
  analysis results >>>
  print Blank >>>
  print Finished.

End Script.

Arguments world : clear implicits.
Arguments M : clear implicits.
Arguments files {env} w.
Arguments outside {env} w.
Arguments trace {env} w.
Arguments ret {env A} a w.
Arguments bind {env A B} m k w.
Arguments lift {env A} r w.
Arguments emit {env} e w.
Arguments print {env} l w.
Arguments stat {env} p w.
Arguments glob_flac {env} d w.
Arguments copy2 {env} copy_error src dst w.
Arguments check_output {env} tool cmd w.
Arguments try_except {env A} body on_timeout on_other w.
Arguments with_TemporaryDirectory {env} mkdtemp {A} body w.
Arguments run_benchmark decimal {env} tool mkdtemp copy_error sample_path serial w.
Arguments print_success {env} time speed w.
Arguments sample_turn decimal {env} tool mkdtemp copy_error total idx sample results w.
Arguments sample_loop decimal {env} tool mkdtemp copy_error total idx samples results w.
Arguments print_rows {env} results w.
Arguments print_bucket {env} b members w.
Arguments analysis {env} results w.
Arguments main decimal {env} tool mkdtemp copy_error w.

(** ** Definitions used to state the properties *)

(** A line the extractor stops at: it contains the label and, once its
    commas are removed, a character of the class [[\d.]]. *)
Definition numbered (decimal : char -> option N) (metric_name line : str) : bool :=
  contains line metric_name && existsb (number_char decimal) (remove COMMA line).

(** A metric that is not below zero. *)
Definition metric_nonneg (m : metric) : Prop :=
  match m with
  | Some x => (x <? 0)%float = false
  | None => True
  end.

(** The size classes as the specification words them: below 100 MB,
    from 100 MB to below 400 MB, 400 MB and more. *)
Definition bucket_of (mb : N) : bucket :=
  if mb <? 100 then Small else if mb <? 400 then Medium else Large.

Definition bucket_eqb (a b : bucket) : bool :=
  match a, b with
  | Small, Small | Medium, Medium | Large, Large => true
  | _, _ => false
  end.

Definition members (b : bucket) (results : list comparison) : list comparison :=
  List.filter (fun r => bucket_eqb (bucket_of (size_mb r)) b) results.

(** The arithmetic mean of the speed-ups of a non-empty list of records,
    in the script's float arithmetic. *)
Definition mean_speedup (rs : list comparison) : float :=
  match sum (List.map speedup rs) with
  | Int0 => 0%float
  | Flt total => (total / float_of_len (length rs))%float
  end.

(** The summary of one size class: nothing for an empty class. *)
Definition summary (b : bucket) (results : list comparison) : list line :=
  match members b results with
  | [] => []
  | rs => [BucketLine b (length rs) (mean_speedup rs)]
  end.

Definition summaries (results : list comparison) : list line :=
  summary Small results ++ summary Medium results ++ summary Large results.

(** [w] after the events [evs]. *)
Definition after {env} (w : world env) (evs : list event) : world env :=
  {| files := files w; outside := outside w; trace := trace w ++ evs |}.

(** The state in which the serial run of a sample starts: the three lines
    that announce it are out. *)
Definition serial_start {env} (total idx : nat) (sample : path) (n : node)
    (w : world env) : world env :=
  after w [Print (Testing idx total (path_name sample) (st_size n / (1024 * 1024)));
           Print (Rule false); Print (ModeStart true)].

(** A run that did not come back with metrics. *)
Definition run_failed (r : result run_result) : Prop :=
  match r with
  | Ok (Metrics _ _ _) => False
  | _ => True
  end.

(** A command line of the serial mode carries the flag. *)
Definition serial_command (cmd : list str) : Prop := In (lit "--serial") cmd.


(** ** A concrete runtime, for runs on given inputs *)

Module Concrete.

(** The ASCII digits of the decimal table. *)
Definition ascii_decimal (c : char) : option N :=
  if (48 <=? c) && (c <=? 57) then Some (c - 48) else None.

(** An external tool that plays a script: its n-th run ends in the n-th
    outcome of the list and leaves the files alone. *)
Definition scripted (cmd : list str) (script : list proc_outcome) (f : gmap path node)
  : proc_outcome * list proc_outcome * gmap path node :=
  match script with
  | o :: rest => (o, rest, f)
  | [] => (NotStarted [], [], f)
  end.

Definition scratch_dir : path := [lit "tmp"; lit "tmpq8x3"].

Definition scratch (script : list proc_outcome) (f : gmap path node)
  : path * list proc_outcome := (scratch_dir, script).

(** The command lines of the scripted runs. *)
Definition serial_run : event := Run (command scratch_dir true).
Definition parallel_run : event := Run (command scratch_dir false).

(** An external tool that plays a script as well and removes the file
    [victim] as it runs. *)
Definition removing (victim : path) (cmd : list str) (script : list proc_outcome)
    (f : gmap path node) : proc_outcome * list proc_outcome * gmap path node :=
  match script with
  | o :: rest => (o, rest, delete victim f)
  | [] => (NotStarted [], [], f)
  end.

(** An operating system that lets every copy through, and one that lets
    the script read no file. *)
Definition permissive (script : list proc_outcome) (src dst : path) : option exn := None.

Definition unreadable (script : list proc_outcome) (src dst : path) : option exn :=
  Some (OSError (lit "Permission denied")).

Definition extract := extract_metric ascii_decimal.
Definition run := run_benchmark ascii_decimal scripted scratch permissive.
Definition turn := sample_turn ascii_decimal scripted scratch permissive.
Definition loop := sample_loop ascii_decimal scripted scratch permissive.
Definition script_main := main ascii_decimal scripted scratch permissive.

Definition sample (file : string) : path := SAMPLES_DIR ++ [lit file].
Definition directory : node := {| is_dir := true; st_size := 0 |}.
Definition file_of (mb : N) : node := {| is_dir := false; st_size := mb * 1048576 + 17 |}.

(** The tool's report of a run time and a throughput. *)
Definition report (time speed : string) : str :=
  lit "运行时间: " ++ lit time ++ lit "s" ++ [NEWLINE] ++
  lit "处理速度: " ++ lit speed ++ lit " MB/s".

Definition start (f : gmap path node) (script : list proc_outcome)
  : world (list proc_outcome) := {| files := f; outside := script; trace := [] |}.

(** No samples directory at all. *)
Definition no_files : gmap path node := ∅.

(** One sample of 50 MB. *)
Definition one_sample : gmap path node :=
  <[sample "a.flac" := file_of 50]> (<[SAMPLES_DIR := directory]> ∅).

(** Two samples, of 50 MB and of 150 MB. *)
Definition two_samples : gmap path node :=
  <[sample "b.flac" := file_of 150]> one_sample.

(** A directory whose name ends in [.flac], before a sample. *)
Definition directory_first : gmap path node :=
  <[sample "b.flac" := file_of 150]>
    (<[sample "a.flac" := directory]> (<[SAMPLES_DIR := directory]> ∅)).

(** A record with both times present and no throughput. *)
Definition record (file : string) (mb : N) (serial parallel : float) (sp : number)
  : comparison :=
  {| name := lit file; size_mb := mb;
     serial_time := Some serial; parallel_time := Some parallel;
     serial_speed := None; parallel_speed := None; speedup := sp |}.

(** Three records, of 50 MB, 150 MB and 500 MB. *)
Definition three_records : list comparison :=
  [record "a.flac" 50 3 2 (Flt 1.5); record "b.flac" 150 4 2 (Flt 2);
   record "c.flac" 500 6 2 (Flt 3)].

End Concrete.

(** ** Definitions used to state further properties *)

(** The state in which a run of [run_benchmark] that starts in [w] copies
    the sample: the scratch directory is made. *)
Definition scratch_made {env : Type} (mkdtemp : env -> gmap path node -> path * env)
    (w : world env) : world env :=
  let '(tmpdir, e1) := mkdtemp (outside w) (files w) in
  {| files := <[tmpdir := {| is_dir := true; st_size := 0 |}]> (files w);
     outside := e1; trace := trace w |}.

(** The copy of line 29 in a run that starts in [w]: the sample goes into
    the scratch directory under its own name. *)
Definition copied {env : Type} (copy_error : env -> path -> path -> option exn)
    (mkdtemp : env -> gmap path node -> path * env)
    (sample : path) (w : world env) : result unit * world env :=
  copy2 copy_error sample (fst (mkdtemp (outside w) (files w)) ++ [path_name sample])
        (scratch_made mkdtemp w).

(** The call of the external tool that a run of [run_benchmark] makes: the
    command of the mode, on the files with the scratch directory made and
    the copy of the sample in it; no call when the copy raises. *)
Definition tool_call {env : Type}
    (tool : list str -> env -> gmap path node -> proc_outcome * env * gmap path node)
    (mkdtemp : env -> gmap path node -> path * env)
    (copy_error : env -> path -> path -> option exn)
    (sample : path) (serial : bool) (w : world env)
  : option (proc_outcome * env * gmap path node) :=
  match copied copy_error mkdtemp sample w with
  | (Ok _, w2) =>
    Some (tool (command (fst (mkdtemp (outside w) (files w))) serial)
               (outside w2) (files w2))
  | (Raise _, _) => None
  end.

(** The way that call ended, and the files it left: no outcome, and the
    files as they were, when the tool was not started. *)
Definition tool_outcome {env : Type}
    (tool : list str -> env -> gmap path node -> proc_outcome * env * gmap path node)
    (mkdtemp : env -> gmap path node -> path * env)
    (copy_error : env -> path -> path -> option exn)
    (sample : path) (serial : bool) (w : world env) : option proc_outcome :=
  match tool_call tool mkdtemp copy_error sample serial w with
  | Some (o, _, _) => Some o
  | None => None
  end.

Definition files_left {env : Type}
    (tool : list str -> env -> gmap path node -> proc_outcome * env * gmap path node)
    (mkdtemp : env -> gmap path node -> path * env)
    (copy_error : env -> path -> path -> option exn)
    (sample : path) (serial : bool) (w : world env) : gmap path node :=
  match tool_call tool mkdtemp copy_error sample serial w with
  | Some (_, _, f') => f'
  | None => files w
  end.

(** What the [try] statement of [run_benchmark] makes of the way the tool
    ended. *)
Definition outcome_result (decimal : char -> option N) (o : proc_outcome) : run_result :=
  match o with
  | Exited 0 out =>
    match extract_metric decimal out (lit "运行时间") with
    | Raise e => Error (Text e)
    | Ok time_sec =>
      match extract_metric decimal out (lit "处理速度") with
      | Raise e => Error (Text e)
      | Ok speed_mbs => Metrics time_sec speed_mbs (firstn 500 out)
      end
    end
  | Exited rc _ => Error (Text (CalledProcessError rc))
  | Expired => Error Timeout
  | NotStarted d => Error (Text (OSError d))
  end.

(** A result that is not an exception. *)
Definition is_Some_ok {A} (r : result A) : Prop :=
  match r with
  | Ok _ => True
  | Raise _ => False
  end.

(** A specification-level float whose sign bit is clear: a zero of this
    kind is the positive zero. *)
Definition sf_sign_clear (x : spec_float) : Prop :=
  match x with
  | S754_nan => True
  | S754_zero s | S754_infinity s | S754_finite s _ _ => s = false
  end.

(** A number, and the speed-up of a record, with a clear sign bit. *)
Definition number_clear (x : number) : Prop :=
  match x with
  | Int0 => True
  | Flt a => sf_sign_clear (Prim2SF a)
  end.

Definition speedup_clear (r : comparison) : Prop := number_clear (speedup r).

(** The points of a run of digits and points, and its other characters,
    the digits. *)
Definition count_points (tok : str) : nat :=
  length (List.filter (fun c => c =? POINT) tok).

Definition count_digits (tok : str) : nat :=
  length (List.filter (fun c => negb (c =? POINT)) tok).

(** The commands among some events, in order. *)
Fixpoint commands (evs : list event) : list (list str) :=
  match evs with
  | [] => []
  | Run cmd :: evs' => cmd :: commands evs'
  | _ :: evs' => commands evs'
  end.

(** The number of records a printed line accounts for. *)
Definition counted (ev : event) : nat :=
  match ev with
  | Print (BucketLine _ count _) => count
  | _ => O
  end.

(** A record with the time and the throughput of both runs present. *)
Definition complete (r : comparison) : Prop :=
  is_Some (serial_time r) /\ is_Some (parallel_time r) /\
  is_Some (serial_speed r) /\ is_Some (parallel_speed r).

(** The state in which the loop over the samples starts: the first four
    lines of [main] are out. *)
Definition loop_start {env} (samples : list path) (w : world env) : world env :=
  after w [Print Banner; Print (Rule true); Print (Found (length samples)); Print Blank].

(** ** More inputs for runs on given inputs *)

Module Cases.

Import Concrete.

(** A sample of 50 MB at a short path, and the files that hold just it. *)
Definition short : path := [lit "s.flac"].

Definition short_files : gmap path node := <[short := file_of 50]> ∅.

(** The record the script makes of [short] for times 3.0 and 2.0 and
    throughputs 10 and 15. *)
Definition short_record : comparison :=
  {| name := lit "s.flac"; size_mb := 50;
     serial_time := Some 3%float; parallel_time := Some 2%float;
     serial_speed := Some 10%float; parallel_speed := Some 15%float;
     speedup := Flt 1.5%float |}.

(** Both runs succeed. *)
Definition both_succeed : world (list proc_outcome) :=
  start short_files [Exited 0 (report "3.0" "10"); Exited 0 (report "2.0" "15")].

(** The first run outlives the time limit. *)
Definition times_out : world (list proc_outcome) := start short_files [Expired].

(** The first run ends with status 3 although it reports metrics. *)
Definition exits_3 : world (list proc_outcome) :=
  start short_files [Exited 3 (report "1.0" "2")].

(** The first run reports a run time that is not a number. *)
Definition malformed : world (list proc_outcome) :=
  start short_files [Exited 0 (lit "运行时间: 1.2.3")].

(** The first run reports no metric. *)
Definition silent : world (list proc_outcome) :=
  start short_files [Exited 0 (lit "done")].

(** The serial run succeeds, the parallel run outlives the time limit. *)
Definition parallel_times_out : world (list proc_outcome) :=
  start short_files [Exited 0 (report "3.0" "10"); Expired].

End Cases.

(** ** Facts on binary64 comparison used below *)

Section FloatFacts.

Local Open Scope Z_scope.

Lemma binary_round_aux_nonneg m e l :
  sf_nonneg (binary_round_aux prec emax false m e l).
Proof.
  unfold binary_round_aux.
  destruct (shr_fexp prec emax m e l) as [r1 e1].
  destruct (shr_fexp prec emax _ e1 loc_Exact) as [r2 e2].
  destruct (shr_m r2); [exact I | | exact I].
  destruct (e2 <=? emax - prec); reflexivity.
Qed.

Lemma binary_round_nonneg m e : sf_nonneg (binary_round prec emax false m e).
Proof.
  unfold binary_round. destruct (shl_align _ _ _) as [mz ez].
  apply binary_round_aux_nonneg.
Qed.

Lemma SFldexp_nonneg x e : sf_nonneg x -> sf_nonneg (SFldexp prec emax x e).
Proof.
  destruct x as [s|s| |s m ex]; cbn; trivial.
  intros ->. apply binary_round_nonneg.
Qed.

Lemma of_uint63_nonneg n : sf_nonneg (Prim2SF (of_uint63 n)).
Proof.
  rewrite of_uint63_spec.
  pose proof (Uint63.to_Z_bounded n) as [Hn _].
  destruct (Uint63.to_Z n) as [|p|p]; cbn; [exact I | | lia].
  apply binary_round_nonneg.
Qed.

Lemma SF2Prim_nonneg x : sf_nonneg x -> sf_nonneg (Prim2SF (SF2Prim x)).
Proof.
  destruct x as [s|s| |s m e]; cbn [sf_nonneg SF2Prim]; intros H.
  - destruct s; vm_compute; exact I.
  - subst s. vm_compute. reflexivity.
  - vm_compute. exact I.
  - subst s. rewrite Z_ldexp_spec. apply SFldexp_nonneg, of_uint63_nonneg.
Qed.

Lemma sf_nonneg_not_below_zero x :
  sf_nonneg x -> SFltb x (S754_zero false) = false.
Proof. destruct x as [s|s| |s m e]; cbn; intros H; subst; reflexivity. Qed.

Lemma float_of_ratio_nonneg num den : (float_of_ratio num den <? 0)%float = false.
Proof.
  unfold float_of_ratio.
  destruct (SFdiv_core_binary prec emax num 0 den 0) as [[q e] l].
  rewrite FloatAxioms.ltb_spec. change (Prim2SF 0) with (S754_zero false).
  apply sf_nonneg_not_below_zero, SF2Prim_nonneg, binary_round_aux_nonneg.
Qed.



End FloatFacts.

(** ** Properties of the script, for any runtime *)

Section Properties.

Variable decimal : char -> option N.
Variable env : Type.
Variable tool : list str -> env -> gmap path node -> proc_outcome * env * gmap path node.
Variable mkdtemp : env -> gmap path node -> path * env.
Variable copy_error : env -> path -> path -> option exn.

Local Abbreviation run := (run_benchmark decimal tool mkdtemp copy_error).
Local Abbreviation turn := (sample_turn decimal tool mkdtemp copy_error).
Local Abbreviation loop := (sample_loop decimal tool mkdtemp copy_error).

(** The scratch directory [run_benchmark] makes when it starts in [w]. *)
Local Abbreviation tmpdir_of w := (fst (mkdtemp (outside w) (files w))).

(** *** The metric extractor *)

Lemma drop_while_nil_iff (p : char -> bool) (s : str) :
  drop_while (fun c => negb (p c)) s = [] <-> existsb p s = false.
Proof.
  induction s as [|c s IH]; cbn; [tauto|].
  destruct (p c); cbn; [split; discriminate | exact IH].
Qed.

Lemma search_number_None (s : str) :
  search_number decimal s = None <-> existsb (number_char decimal) s = false.
Proof.
  unfold search_number. rewrite <- drop_while_nil_iff.
  destruct (drop_while _ s); split; congruence.
Qed.

Lemma search_number_Some (s : str) :
  existsb (number_char decimal) s = true ->
  exists tok, search_number decimal s = Some tok.
Proof.
  intros H. destruct (search_number decimal s) as [tok|] eqn:E; [eauto|].
  apply search_number_None in E. congruence.
Qed.

(** The loop stops at the first numbered line and reads nothing after
    it. *)
Lemma scan_lines_find (lines : list str) (metric_name : str) :
  scan_lines decimal lines metric_name =
  match List.find (numbered decimal metric_name) lines with
  | Some l =>
      match search_number decimal (remove COMMA l) with
      | Some tok => rbind (float_of_str decimal tok) (fun x => Ok (Some x))
      | None => Ok None
      end
  | None => Ok None
  end.
Proof.
  induction lines as [|l lines IH]; cbn; [reflexivity|].
  unfold numbered at 1.
  destruct (contains l metric_name); cbn; [|exact IH].
  destruct (search_number decimal (remove COMMA l)) as [tok|] eqn:E.
  - assert (existsb (number_char decimal) (remove COMMA l) = true) as ->.
    { destruct (existsb _ _) eqn:X; [reflexivity|].
      apply search_number_None in X. congruence. }
    rewrite E. reflexivity.
  - apply search_number_None in E. rewrite E. exact IH.
Qed.

Lemma float_of_str_nonneg (tok : str) (x : float) :
  float_of_str decimal tok = Ok x -> (x <? 0)%float = false.
Proof.
  unfold float_of_str.
  destruct (read_literal decimal tok _) as [l|]; [|discriminate].
  destruct (digits l) as [|nd]; [discriminate|].
  destruct (points l) as [|[|np]]; try discriminate;
    intros [= <-]; apply float_of_ratio_nonneg.
Qed.

Lemma scan_lines_nonneg (lines : list str) (metric_name : str) (m : metric) :
  scan_lines decimal lines metric_name = Ok m -> metric_nonneg m.
Proof.
  induction lines as [|l lines IH]; cbn.
  - intros [= <-]. exact I.
  - destruct (contains l metric_name); [|exact IH].
    destruct (search_number decimal (remove COMMA l)) as [tok|]; [|exact IH].
    destruct (float_of_str decimal tok) as [x|e] eqn:E; cbn; [|discriminate].
    intros [= <-]. cbn. eapply float_of_str_nonneg, E.
Qed.

Lemma extract_metric_nonneg (output metric_name : str) (m : metric) :
  extract_metric decimal output metric_name = Ok m -> metric_nonneg m.
Proof. apply scan_lines_nonneg. Qed.


(** *** The isolated run executor *)

Lemma under_refl (d : path) : under d d = true.
Proof. induction d as [|x d IH]; cbn; [reflexivity|]. by rewrite decide_True. Qed.

Lemma under_app (d rest : path) : under d (d ++ rest) = true.
Proof. induction d as [|x d IH]; cbn; [reflexivity|]. by rewrite decide_True. Qed.

Lemma rmtree_lookup (d p : path) (f : gmap path node) :
  under d p = true -> rmtree d f !! p = None.
Proof.
  intros H. unfold rmtree. apply map_lookup_filter_None. right.
  intros n _. cbn. congruence.
Qed.

Lemma rmtree_lookup_outside (d p : path) (f : gmap path node) :
  under d p = false -> rmtree d f !! p = f !! p.
Proof.
  intros H. unfold rmtree. destruct (f !! p) as [n|] eqn:E.
  - apply map_lookup_filter_Some. split; [exact E | exact H].
  - apply map_lookup_filter_None. left. exact E.
Qed.

(** The files left by [with ... as tmpdir] are those its body left, less
    the scratch directory. *)
Lemma with_TemporaryDirectory_files {A} (body : path -> M env A) (w : world env) :
  exists f, files (snd (with_TemporaryDirectory mkdtemp body w)) = rmtree (tmpdir_of w) f.
Proof.
  unfold with_TemporaryDirectory.
  destruct (mkdtemp (outside w) (files w)) as [d e1]. cbn [fst].
  destruct (body d _) as [r w2]. cbn. eauto.
Qed.

(** The extractor raises nothing but [ValueError]. *)
Lemma scan_lines_raises (lines : list str) (metric_name : str) (e : exn) :
  scan_lines decimal lines metric_name = Raise e -> exists tok, e = ValueError tok.
Proof.
  induction lines as [|l lines IH]; cbn; [discriminate|].
  destruct (contains l metric_name); [|exact IH].
  destruct (search_number decimal (remove COMMA l)) as [tok|]; [|exact IH].
  unfold float_of_str.
  destruct (read_literal decimal tok _) as [lt|]; cbn; [|intros [= <-]; eauto].
  destruct (digits lt) as [|nd]; cbn; [intros [= <-]; eauto|].
  destruct (points lt) as [|[|np]]; cbn; try discriminate; intros [= <-]; eauto.
Qed.

(** A run, by its copy: when the copy raises, so does the run, and no
    command is run; when the copy goes through, the one call of the tool
    decides all of it. *)
Lemma run_benchmark_cases sample serial (w : world env) :
  run sample serial w =
  match copied copy_error mkdtemp sample w with
  | (Ok _, w2) =>
    let '(o, e', f') := tool (command (tmpdir_of w) serial) (outside w2) (files w2) in
    (Ok (outcome_result decimal o),
     {| files := rmtree (tmpdir_of w) f'; outside := e';
        trace := trace w ++ [Run (command (tmpdir_of w) serial)] |})
  | (Raise e, w2) =>
    (Raise e, {| files := rmtree (tmpdir_of w) (files w2); outside := outside w2;
                 trace := trace w |})
  end.
Proof.
  unfold run_benchmark, with_TemporaryDirectory, copied, scratch_made, bind, copy2,
    try_except, check_output, lift, ret.
  destruct (mkdtemp (outside w) (files w)) as [d e1]. cbn [fst files outside trace].
  destruct (_ !! sample) as [n|]; [|reflexivity].
  destruct (is_dir n); [reflexivity|].
  destruct (copy_error _ _ _); [reflexivity|]. cbn [files outside trace].
  destruct (tool _ _ _) as [[o e'] f'].
  destruct o as [rc out| |dt]; [destruct rc as [|rc|rc]| |];
    cbn [outcome_result]; try reflexivity.
  destruct (extract_metric decimal out (lit "运行时间")) as [t|ex] eqn:Et.
  2:{ apply scan_lines_raises in Et as [tok ->]. reflexivity. }
  destruct (extract_metric decimal out (lit "处理速度")) as [s|ex] eqn:Es.
  2:{ apply scan_lines_raises in Es as [tok ->]. reflexivity. }
  reflexivity.
Qed.

(** When the copy goes through: the sample is a regular file, and the
    operating system lets the script copy it. *)
Lemma copied_ok_iff sample (w : world env) :
  fst (copied copy_error mkdtemp sample w) = Ok tt <->
  exists n,
    files (scratch_made mkdtemp w) !! sample = Some n /\ is_dir n = false /\
    copy_error (outside (scratch_made mkdtemp w)) sample
               (tmpdir_of w ++ [path_name sample]) = None.
Proof.
  unfold copied, copy2.
  destruct (files (scratch_made mkdtemp w) !! sample) as [n|];
    [|split; [discriminate | intros (n & [=] & _)]].
  destruct (is_dir n) eqn:Ed; cbn [fst].
  - split; [discriminate | intros (n' & [= <-] & Hd & _); congruence].
  - destruct (copy_error _ _ _) eqn:Ee; cbn [fst].
    + split; [discriminate | intros (n' & _ & _ & [=])].
    + split; [eauto | reflexivity].
Qed.

(** What a run adds to the trace: nothing when the copy fails, else the
    one command. *)
Lemma run_benchmark_trace (sample : path) (serial : bool) (w : world env) :
  trace (snd (run sample serial w)) = trace w \/
  trace (snd (run sample serial w)) =
    trace w ++ [Run (command (tmpdir_of w) serial)].
Proof.
  unfold run_benchmark, with_TemporaryDirectory, bind, copy2, try_except,
    check_output, lift, ret.
  destruct (mkdtemp (outside w) (files w)) as [d e1]. cbn [fst files outside trace].
  destruct (_ !! sample) as [n|]; [|left; reflexivity].
  destruct (is_dir n); [left; reflexivity|].
  destruct (copy_error _ _ _); [left; reflexivity|].
  right. cbn [files outside trace].
  destruct (tool _ _ _) as [[o e'] f'].
  destruct o as [rc out| |dt]; [destruct rc as [|rc|rc]| |];
    cbn [fst snd trace]; try reflexivity.
  destruct (extract_metric decimal out _) as [t|ex]; [|destruct ex; reflexivity].
  destruct (extract_metric decimal out _) as [s|ex]; [|destruct ex; reflexivity].
  reflexivity.
Qed.


(** *** The comparative runner *)

Lemma after_after (w : world env) (a b : list event) :
  after (after w a) b = after w (a ++ b).
Proof. unfold after. cbn [files outside trace]. by rewrite app_assoc. Qed.

Lemma serial_flag_in_command (d : path) (serial : bool) :
  serial_command (command d serial) <-> serial = true.
Proof.
  unfold serial_command, command. destruct serial; cbn [app In].
  - split; [reflexivity | intros _; right; right; left; reflexivity].
  - split; [|discriminate].
    intros [H|[H|[]]]; exfalso.
    + vm_compute in H. discriminate H.
    + destruct d as [|c d]; cbn in H; [vm_compute in H|]; discriminate H.
Qed.

(** The events of one run: at most the one command, of the mode asked. *)
Lemma run_benchmark_events sample serial (w : world env) :
  exists evs,
    trace (snd (run sample serial w)) = trace w ++ evs /\
    Forall (fun ev => forall cmd, ev = Run cmd ->
                      (serial_command cmd <-> serial = true)) evs.
Proof.
  destruct (run_benchmark_trace sample serial w) as [H|H].
  - exists []. rewrite app_nil_r. split; [exact H | constructor].
  - eexists. split; [exact H|].
    constructor; [|constructor]. intros cmd [= <-]. apply serial_flag_in_command.
Qed.


(** The turn of a sample up to the end of its serial run. *)
Lemma turn_unfold total idx sample results (w : world env) n :
  files w !! sample = Some n ->
  turn total idx sample results w =
  match run sample true (serial_start total idx sample n w) with
  | (Ok (Error e), w1) => (Ok results, after w1 [Print (Failure e)])
  | (Ok (Metrics s_time s_speed _), w1) =>
    match s_time, s_speed with
    | Some ts, Some vs =>
      let w2 := after w1 [Print (Success ts vs); Sleep 2; Print (ModeStart false)] in
      match run sample false w2 with
      | (Ok (Error e), w3) => (Ok results, after w3 [Print (Failure e)])
      | (Ok (Metrics p_time p_speed _), w3) =>
        match p_time, p_speed with
        | Some tp, Some vp =>
          let sp := if float_truthy tp then Flt (ts / tp)%float else Int0 in
          (Ok (results ++ [{| name := path_name sample;
                              size_mb := st_size n / (1024 * 1024);
                              serial_time := s_time; parallel_time := p_time;
                              serial_speed := s_speed; parallel_speed := p_speed;
                              speedup := sp |}]),
           after w3 [Print (Success tp vp); Print (SpeedupLine sp); Print Blank])
        | _, _ => (Raise TypeError, w3)
        end
      | (Raise e, w3) => (Raise e, w3)
      end
    | _, _ => (Raise TypeError, w1)
    end
  | (Raise e, w1) => (Raise e, w1)
  end.
Proof.
  intros Hn.
  cbv beta iota zeta delta [sample_turn bind stat print emit lift ret print_success
                            format_2f speedup_of truthy truediv rbind float_truthy].
  rewrite Hn. unfold serial_start, after.
  cbn [files outside trace]. rewrite <- ?app_assoc. cbn [app].
  destruct (run sample true _) as [[[s_time s_speed o1|e1]|ex1] w1]; try reflexivity.
  destruct s_time as [ts|]; [|reflexivity].
  destruct s_speed as [vs|]; [|reflexivity].
  cbn [files outside trace]. rewrite <- ?app_assoc. cbn [app].
  destruct (run sample false _) as [[[p_time p_speed o3|e3]|ex3] w3]; try reflexivity.
  destruct p_time as [tp|]; [|reflexivity].
  destruct p_speed as [vp|]; [|reflexivity].
  cbn [files outside trace]. rewrite <- ?app_assoc. cbn [app].
  destruct (tp =? 0)%float; cbn [negb]; rewrite <- ?app_assoc; reflexivity.
Qed.


(** C7: when the serial run of a sample fails, every command the turn of
    that sample runs is a serial-mode command, so no parallel run is
    attempted, and the turn leaves [results], from which alone the bucket
    summaries are computed, as it found it. *)
Theorem serial_failure_skips_sample total idx sample results (w : world env) n :
  files w !! sample = Some n ->
  run_failed (fst (run sample true (serial_start total idx sample n w))) ->
  (exists evs,
     trace (snd (turn total idx sample results w)) = trace w ++ evs /\
     Forall (fun ev => forall cmd, ev = Run cmd -> serial_command cmd) evs) /\
  (forall rs, fst (turn total idx sample results w) = Ok rs -> rs = results).
Proof.
  intros Hn Hfail. rewrite (turn_unfold _ _ _ _ _ _ Hn).
  destruct (run_benchmark_events sample true (serial_start total idx sample n w))
    as (evs & Htr & Hevs).
  assert (Forall (fun ev => forall cmd, ev = Run cmd -> serial_command cmd) evs)
    as Hser.
  { eapply Forall_impl; [exact Hevs|]. intros ev H cmd ->. by apply (H cmd). }
  assert (forall ls, Forall (fun ev => forall cmd, ev = Run cmd -> serial_command cmd)
                       (List.map Print ls)) as Hpr.
  { intros ls. apply Forall_forall. intros ev Hin cmd ->.
    apply list_elem_of_In, in_map_iff in Hin. destruct Hin as (l & [=] & _). }
  destruct (run sample true _) as [[[s_time s_speed o1|e1]|ex1] w1];
    cbn [fst snd] in *; [contradiction| |].
  - split; [|by intros rs [= <-]].
    eexists. split.
    + cbn [after trace]. rewrite Htr. cbn [serial_start after trace].
      rewrite <- !app_assoc. reflexivity.
    + apply Forall_app. split; [apply (Hpr [_; _; _])|].
      apply Forall_app. split; [exact Hser | apply (Hpr [_])].
  - split; [|discriminate].
    eexists. split.
    + rewrite Htr. cbn [serial_start after trace]. rewrite <- !app_assoc. reflexivity.
    + apply Forall_app. split; [apply (Hpr [_; _; _]) | exact Hser].
Qed.



Lemma loop_keeps (P : comparison -> Prop) (total : nat) (samples : list path) :
  (forall idx sample results (w : world env) rs,
     fst (turn total idx sample results w) = Ok rs ->
     rs = results \/ exists r, rs = results ++ [r] /\ P r) ->
  forall idx results (w : world env) rs,
    fst (loop total idx samples results w) = Ok rs ->
    Forall P results -> Forall P rs.
Proof.
  intros Hturn. induction samples as [|sample rest IH]; intros i results w rs.
  - cbn. by intros [= <-].
  - cbn [sample_loop]. unfold bind.
    destruct (turn total i sample results w) as [[rs1|e] w1] eqn:E; [|discriminate].
    intros Hloop Hres. eapply IH; [exact Hloop|].
    destruct (Hturn i sample results w rs1) as [->|(r & -> & Hr)].
    + by rewrite E.
    + exact Hres.
    + apply Forall_app. split; [exact Hres | by constructor].
Qed.


(** C8: a run hands the external tool a command exactly when the copy of
    the sample into its scratch directory has gone through.  Then the run
    adds that one command to the trace: the executable, then the scratch
    directory of the run, then the serial flag when the run is serial and
    nothing more when it is parallel.  When the copy raises, no command is
    run.  So whatever command a run adds carries the flag exactly when the
    run is serial. *)
Theorem command_line (sample : path) (serial : bool) (w : world env) :
  (fst (copied copy_error mkdtemp sample w) = Ok tt ->
   trace (snd (run sample serial w)) =
     trace w ++ [Run (path_str EXE_PATH :: path_str (tmpdir_of w) ::
                      (if serial then [lit "--serial"] else []))]) /\
  (forall e, fst (copied copy_error mkdtemp sample w) = Raise e ->
   trace (snd (run sample serial w)) = trace w) /\
  (forall evs cmd, trace (snd (run sample serial w)) = trace w ++ evs ->
   In (Run cmd) evs -> (serial_command cmd <-> serial = true)).
Proof.
  rewrite run_benchmark_cases.
  destruct (copied copy_error mkdtemp sample w) as [[[]|e0] w2] eqn:Ec; cbn [fst].
  - destruct (tool _ _ _) as [[o e'] f']. cbn [snd trace].
    split; [reflexivity|]. split; [discriminate|].
    intros evs cmd Hevs Hin. apply app_inv_head in Hevs. subst evs.
    destruct Hin as [[= <-]|[]]. apply serial_flag_in_command.
  - cbn [snd trace]. split; [discriminate|]. split; [reflexivity|].
    intros evs cmd Hevs Hin. rewrite <- (app_nil_r (trace w)) in Hevs at 1.
    apply app_inv_head in Hevs. subst evs. destruct Hin.
Qed.

(** C9: however a run ends, with metrics, with a timeout, with an error
    or with an exception, the scratch directory it made and everything
    below it are gone from the files when it returns. *)
Theorem scratch_directory_removed sample serial (w : world env) :
  files (snd (run sample serial w)) !! tmpdir_of w = None /\
  forall below, files (snd (run sample serial w)) !! (tmpdir_of w ++ below) = None.
Proof.
  unfold run_benchmark.
  destruct (with_TemporaryDirectory_files
              (fun tmpdir =>
                 bind (copy2 copy_error sample (tmpdir ++ [path_name sample]))
                   (fun _ =>
                      try_except
                        (bind (check_output tool (command tmpdir serial)) (fun output =>
                         bind (lift (extract_metric decimal output (lit "运行时间")))
                           (fun time_sec =>
                         bind (lift (extract_metric decimal output (lit "处理速度")))
                           (fun speed_mbs =>
                         ret (Metrics time_sec speed_mbs (firstn 500 output))))))
                        (ret (Error Timeout))
                        (fun e => ret (Error (Text e))))) w) as [f Hf].
  rewrite Hf. split; [|intros below]; apply rmtree_lookup;
    [apply under_refl | apply under_app].
Qed.

(** The enumeration reads the files and nothing else, and changes
    nothing. *)
Lemma glob_flac_result (d : path) (w w' : world env) :
  files w' = files w -> glob_flac d w' = (fst (glob_flac d w), w').
Proof.
  intros H. unfold glob_flac. rewrite H.
  destruct (files w !! d) as [[[] sz]|]; reflexivity.
Qed.

(** An exception of a run of the sample is the exception of its turn and
    of the loop: the turn has no handler, and the samples still to come
    are not visited. *)
Lemma loop_raises_with_serial_run total idx sample rest results (w : world env) n e :
  files w !! sample = Some n ->
  fst (run sample true (serial_start total idx sample n w)) = Raise e ->
  loop total idx (sample :: rest) results w =
    (Raise e, snd (run sample true (serial_start total idx sample n w))).
Proof.
  intros Hn H. cbn [sample_loop]. unfold bind. rewrite (turn_unfold _ _ _ _ _ _ Hn).
  destruct (run sample true _) as [[r|e0] w1]; cbn [fst snd] in *; [discriminate|].
  by injection H as ->.
Qed.

Lemma loop_raises_with_parallel_run total idx sample rest results (w : world env)
    n ts vs o e :
  files w !! sample = Some n ->
  fst (run sample true (serial_start total idx sample n w))
    = Ok (Metrics (Some ts) (Some vs) o) ->
  let w2 := after (snd (run sample true (serial_start total idx sample n w)))
                  [Print (Success ts vs); Sleep 2; Print (ModeStart false)] in
  fst (run sample false w2) = Raise e ->
  loop total idx (sample :: rest) results w = (Raise e, snd (run sample false w2)).
Proof.
  intros Hn Hs w2 Hp. cbn [sample_loop]. unfold bind.
  rewrite (turn_unfold _ _ _ _ _ _ Hn).
  destruct (run sample true _) as [[r|e0] w1]; cbn [fst snd] in *; [|discriminate].
  injection Hs as ->. fold w2.
  destruct (run sample false w2) as [[r|e0] w3]; cbn [fst snd] in *; [discriminate|].
  by injection Hp as ->.
Qed.

(** The loop over a list in two parts: the second part starts where the
    first part ends, if it returns. *)
Lemma loop_app total idx (pre post : list path) results (w : world env) :
  loop total idx (pre ++ post) results w =
  match loop total idx pre results w with
  | (Ok rs, w') => loop total (length pre + idx) post rs w'
  | (Raise e, w') => (Raise e, w')
  end.
Proof.
  revert idx results w. induction pre as [|x pre IH]; intros idx results w;
    [reflexivity|].
  cbn [app sample_loop length]. unfold bind.
  destruct (turn total idx x results w) as [[rs|e] w']; [|reflexivity].
  rewrite IH, Nat.add_succ_r. reflexivity.
Qed.

(** [main] has no handler either: what the loop raises, [main] raises. *)
Lemma main_raises_with_loop (w : world env) (samples : list path) (e : exn) :
  fst (glob_flac SAMPLES_DIR w) = Ok samples ->
  fst (loop (length samples) 1 samples [] (loop_start samples w)) = Raise e ->
  fst (main decimal tool mkdtemp copy_error w) = Raise e.
Proof.
  intros Hglob H.
  cbv beta iota zeta delta [main bind print emit]. cbn [files outside trace].
  rewrite (glob_flac_result SAMPLES_DIR w) by reflexivity. rewrite Hglob.
  cbn [files outside trace]. rewrite <- !app_assoc. cbn [app].
  change {| files := files w; outside := outside w; trace := trace w ++ _ |}
    with (loop_start samples w).
  destruct (loop (length samples) 1 samples [] (loop_start samples w))
    as [[rs|e'] w1]; cbn [fst] in *; [discriminate|].
  by injection H as ->.
Qed.

(** C10: let the copy of the sample into the scratch directory raise [e]
    in a run that starts in [w], whatever [e] is: the file is gone, it is
    a directory, or the operating system refuses the copy.  The copy stands
    before the [try] statement, so the run ends in [e] itself and not in
    an error result, and it runs no command.  Nothing above the run has a
    handler.  Wherever the sample stands in the list, once the samples
    before it are through: when the run is the serial run of the sample's
    turn, or the parallel run after a serial run that succeeded, the loop
    over the samples ends in [e] with that run, whatever samples were
    still to come; and what the loop raises, [main] raises. *)
Theorem copy_failure_escapes sample (w : world env) (e : exn) :
  fst (copied copy_error mkdtemp sample w) = Raise e ->
  (forall serial,
     fst (run sample serial w) = Raise e /\
     trace (snd (run sample serial w)) = trace w) /\
  (forall total idx pre rest results0 w00 results w0 n,
     loop total idx pre results0 w00 = (Ok results, w0) ->
     files w0 !! sample = Some n ->
     w = serial_start total (length pre + idx) sample n w0 ->
     fst (loop total idx (pre ++ sample :: rest) results0 w00) = Raise e /\
     trace (snd (loop total idx (pre ++ sample :: rest) results0 w00)) = trace w) /\
  (forall total idx pre rest results0 w00 results w0 n ts vs o,
     loop total idx pre results0 w00 = (Ok results, w0) ->
     files w0 !! sample = Some n ->
     fst (run sample true (serial_start total (length pre + idx) sample n w0))
       = Ok (Metrics (Some ts) (Some vs) o) ->
     w = after (snd (run sample true
                       (serial_start total (length pre + idx) sample n w0)))
               [Print (Success ts vs); Sleep 2; Print (ModeStart false)] ->
     fst (loop total idx (pre ++ sample :: rest) results0 w00) = Raise e /\
     trace (snd (loop total idx (pre ++ sample :: rest) results0 w00)) = trace w) /\
  (forall w0 samples,
     fst (glob_flac SAMPLES_DIR w0) = Ok samples ->
     fst (loop (length samples) 1 samples [] (loop_start samples w0)) = Raise e ->
     fst (main decimal tool mkdtemp copy_error w0) = Raise e).
Proof.
  intros Hc.
  assert (forall serial, fst (run sample serial w) = Raise e /\
                         trace (snd (run sample serial w)) = trace w) as Hrun.
  { intros serial. rewrite run_benchmark_cases.
    destruct (copied copy_error mkdtemp sample w) as [[[]|e0] w2];
      cbn [fst snd trace] in *; [discriminate|].
    injection Hc as ->. by split. }
  split; [exact Hrun|]. split; [|split].
  - intros total idx pre rest results0 w00 results w0 n Hpre Hn ->.
    destruct (Hrun true) as [Hr Ht]. rewrite loop_app, Hpre.
    rewrite (loop_raises_with_serial_run _ _ _ _ _ _ _ _ Hn Hr). by split.
  - intros total idx pre rest results0 w00 results w0 n ts vs o Hpre Hn Hs ->.
    destruct (Hrun false) as [Hr Ht]. rewrite loop_app, Hpre.
    rewrite (loop_raises_with_parallel_run _ _ _ _ _ _ _ _ _ _ _ Hn Hs Hr). by split.
  - intros w0 samples. apply main_raises_with_loop.
Qed.

(** *** The size-bucket report *)

Lemma after_nil (w : world env) : after w [] = w.
Proof. destruct w. unfold after. cbn. by rewrite app_nil_r. Qed.

Lemma print_bucket_summary (b : bucket) (ms : list comparison) (w : world env) :
  print_bucket b ms w =
  (Ok tt, after w (List.map Print
                     match ms with
                     | [] => []
                     | _ => [BucketLine b (length ms) (mean_speedup ms)]
                     end)).
Proof.
  destruct ms as [|m ms]; cbn [print_bucket List.map].
  - unfold ret. by rewrite after_nil.
  - unfold bind, lift, print, emit, div_len, mean_speedup. cbn [length].
    destruct (sum _); reflexivity.
Qed.

Lemma bucket_of_spec (mb : N) :
  (bucket_of mb = Small <-> mb < 100) /\
  (bucket_of mb = Medium <-> 100 <= mb < 400) /\
  (bucket_of mb = Large <-> 400 <= mb).
Proof.
  unfold bucket_of.
  destruct (N.ltb_spec mb 100), (N.ltb_spec mb 400);
    (repeat split; try discriminate; try reflexivity; lia).
Qed.

(** C6: the report prints one line for each size class that has records
    and none for an empty class, in the order small, medium, large; the
    classes are below 100 MB, from 100 MB to below 400 MB, and 400 MB or
    more; each line carries the number of records of its class and the
    mean of their speed-ups. *)
Theorem bucket_summaries (results : list comparison) (w : world env) :
  analysis results w = (Ok tt, after w (List.map Print (summaries results))) /\
  (forall mb, (bucket_of mb = Small <-> mb < 100) /\
              (bucket_of mb = Medium <-> 100 <= mb < 400) /\
              (bucket_of mb = Large <-> 400 <= mb)).
Proof.
  split; [|exact bucket_of_spec].
  unfold analysis, bind.
  assert (forall f b, (forall r : comparison,
                         f r = bucket_eqb (bucket_of (size_mb r)) b) ->
                      List.filter f results = members b results) as Hm.
  { intros f b H. unfold members. apply List.filter_ext. exact H. }
  rewrite (Hm _ Small), (Hm _ Medium), (Hm _ Large).
  - rewrite !print_bucket_summary, !after_after.
    unfold summaries, summary. rewrite !List.map_app.
    by destruct (members Small results), (members Medium results),
      (members Large results).
  - intros r. unfold bucket_of.
    destruct (N.ltb_spec (size_mb r) 100), (N.ltb_spec (size_mb r) 400),
      (N.leb_spec 400 (size_mb r)); cbn; try reflexivity; lia.
  - intros r. unfold bucket_of.
    destruct (N.ltb_spec (size_mb r) 100), (N.ltb_spec (size_mb r) 400),
      (N.leb_spec 100 (size_mb r)); cbn; try reflexivity; lia.
  - intros r. unfold bucket_of.
    destruct (N.ltb_spec (size_mb r) 100), (N.ltb_spec (size_mb r) 400);
      cbn; try reflexivity; lia.
Qed.

(** *** The sample enumerator *)

(** C4 (amended): when the samples directory does not exist the
    enumeration raises nothing and yields no sample; [main] then reports
    zero samples, prints an empty table and ends normally without running
    the tool. *)
Theorem missing_directory_lists_nothing (w : world env) :
  files w !! SAMPLES_DIR = None ->
  glob_flac SAMPLES_DIR w = (Ok [], w) /\
  main decimal tool mkdtemp copy_error w =
    (Ok tt, after w (List.map Print
                       [Banner; Rule true; Found 0; Blank; Rule true; TableTitle;
                        Blank; TableHead; Rule false; Blank; Rule true;
                        AnalysisTitle; Blank; Blank; Finished])).
Proof.
  intros H. split.
  - unfold glob_flac. by rewrite H.
  - cbv beta iota zeta delta [main bind print emit glob_flac].
    cbn [files outside trace]. rewrite H.
    cbv beta iota zeta delta [sample_loop print_rows analysis print_bucket bind ret
                              print emit length List.filter].
    unfold after. cbn [files outside trace List.map]. rewrite <- !app_assoc.
    reflexivity.
Qed.

(** *** More on the metric extractor *)

Lemma take_while_all (p : char -> bool) (s : str) :
  Forall (fun c => p c = true) (take_while p s).
Proof.
  induction s as [|c s IH]; cbn; [constructor|].
  destruct (p c) eqn:E; constructor; assumption.
Qed.

Lemma search_number_class (s tok : str) :
  search_number decimal s = Some tok ->
  Forall (fun c => number_char decimal c = true) tok.
Proof.
  unfold search_number. destruct (drop_while _ s) as [|c rest]; [discriminate|].
  intros [= <-]. apply (take_while_all (number_char decimal) (c :: rest)).
Qed.

(** Reading a run of digits and points counts them. *)
Lemma read_literal_counts (tok : str) (acc : literal) :
  Forall (fun c => number_char decimal c = true) tok ->
  exists l, read_literal decimal tok acc = Some l /\
            digits l = (digits acc + count_digits tok)%nat /\
            points l = (points acc + count_points tok)%nat.
Proof.
  revert acc. induction tok as [|c tok IH]; intros acc Hall.
  - exists acc. cbn. unfold count_digits, count_points. cbn. by rewrite !Nat.add_0_r.
  - apply Forall_cons in Hall as [Hc Hall]. cbn [read_literal].
    unfold count_digits, count_points in *. cbn [List.filter].
    destruct (c =? POINT) eqn:Ep; cbn [negb length].
    + destruct (IH {| mant := mant acc; digits := digits acc;
                      points := S (points acc); scale := scale acc |} Hall)
        as (l & Hl & Hd & Hp).
      exists l. cbn [digits points] in *. repeat split; [exact Hl | lia | lia].
    + unfold number_char in Hc. rewrite Ep in Hc.
      destruct (decimal c) as [d|]; [|discriminate].
      destruct (IH {| mant := 10 * mant acc + d; digits := S (digits acc);
                      points := points acc;
                      scale := match points acc with
                               | O => scale acc
                               | S _ => S (scale acc)
                               end |} Hall)
        as (l & Hl & Hd & Hp).
      exists l. cbn [digits points] in *. repeat split; [exact Hl | lia | lia].
Qed.

(** [float] takes a run of digits and points exactly when it has a digit
    and at most one point. *)
Lemma float_of_str_raises_iff (tok : str) :
  Forall (fun c => number_char decimal c = true) tok ->
  float_of_str decimal tok = Raise (ValueError tok) <->
  count_digits tok = O \/ (2 <= count_points tok)%nat.
Proof.
  intros Hall. unfold float_of_str.
  destruct (read_literal_counts tok {| mant := 0; digits := 0; points := 0; scale := 0 |}
              Hall) as (l & -> & Hd & Hp).
  cbn [digits points] in Hd, Hp. rewrite Hd, Hp. cbn [Nat.add].
  destruct (count_digits tok) as [|nd]; [split; [by left | reflexivity]|].
  destruct (count_points tok) as [|[|np]]; split;
    try discriminate; try reflexivity; try (intros [?|?]; [discriminate|lia]).
  intros _. right. lia.
Qed.

Lemma float_of_str_raises (tok : str) (e : exn) :
  float_of_str decimal tok = Raise e -> e = ValueError tok.
Proof.
  unfold float_of_str.
  destruct (read_literal decimal tok _) as [l|]; [|by intros [= <-]].
  destruct (digits l) as [|nd]; [by intros [= <-]|].
  destruct (points l) as [|[|np]]; try discriminate; by intros [= <-].
Qed.

(** X1: the extractor answers [None] exactly when no line holds both the
    label and, once its commas are removed, a digit or a point; an empty
    output is one such case. *)
Theorem extract_metric_None_iff (text metric_name : str) :
  extract_metric decimal text metric_name = Ok None <->
  Forall (fun l => numbered decimal metric_name l = false) (split NEWLINE text).
Proof.
  unfold extract_metric. rewrite scan_lines_find.
  destruct (List.find _ _) as [l|] eqn:E.
  - apply List.find_some in E as [Hin E]. split.
    + unfold numbered in E. apply andb_true_iff in E as [_ E].
      destruct (search_number_Some _ E) as [tok ->].
      destruct (float_of_str decimal tok); discriminate.
    + intros Hall. rewrite Forall_forall in Hall.
      apply list_elem_of_In in Hin. apply Hall in Hin. congruence.
  - split; [|reflexivity]. intros _. apply Forall_forall. intros l Hl.
    apply list_elem_of_In in Hl.
    destruct (numbered decimal metric_name l) eqn:N; [|reflexivity].
    by apply (List.find_none _ _ E) in Hl; congruence.
Qed.

(** X2: the extractor raises exactly when the first run of digits and
    points of the deciding line has no digit or has two points or more;
    the exception is a [ValueError] that carries that run. *)
Theorem extract_metric_raises_iff (text metric_name : str) (e : exn) :
  extract_metric decimal text metric_name = Raise e <->
  exists l tok,
    List.find (numbered decimal metric_name) (split NEWLINE text) = Some l /\
    search_number decimal (remove COMMA l) = Some tok /\
    e = ValueError tok /\
    (count_digits tok = O \/ (2 <= count_points tok)%nat).
Proof.
  unfold extract_metric. rewrite scan_lines_find.
  destruct (List.find _ _) as [l|] eqn:E.
  2:{ split; [discriminate|]. intros (l & tok & H & _). discriminate H. }
  destruct (search_number decimal (remove COMMA l)) as [tok|] eqn:Et.
  2:{ split; [discriminate|]. intros (l' & tok & H1 & H2 & _).
      injection H1 as <-. rewrite Et in H2. discriminate H2. }
  pose proof (search_number_class _ _ Et) as Hall.
  split.
  - destruct (float_of_str decimal tok) as [x|e'] eqn:Ef; cbn; [discriminate|].
    intros [= <-]. pose proof (float_of_str_raises _ _ Ef) as ->.
    exists l, tok. split; [reflexivity|]. split; [exact Et|].
    split; [reflexivity|]. by apply float_of_str_raises_iff.
  - intros (l' & tok' & H1 & H2 & -> & Hbad).
    injection H1 as <-. rewrite Et in H2. injection H2 as <-.
    apply (float_of_str_raises_iff tok Hall) in Hbad. by rewrite Hbad.
Qed.

(** X3: a number the extractor returns is never below zero: a sign in
    front of the digits is not part of the run that is read. *)
Theorem extract_metric_never_negative (text metric_name : str) (x : float) :
  extract_metric decimal text metric_name = Ok (Some x) -> (x <? 0)%float = false.
Proof. intros H. exact (extract_metric_nonneg _ _ _ H). Qed.

(** *** More on the isolated run executor *)

(** X4: once the copy of the sample into the scratch directory has gone
    through, [run_benchmark] raises nothing and starts the external tool
    exactly once: whatever the tool does and whatever the extractor makes
    of its output ends in a returned dictionary. *)
Theorem copied_sample_returns sample serial (w : world env) :
  fst (copied copy_error mkdtemp sample w) = Ok tt ->
  (exists r, fst (run sample serial w) = Ok r) /\
  trace (snd (run sample serial w)) =
    trace w ++ [Run (command (tmpdir_of w) serial)].
Proof.
  intros Hc. rewrite run_benchmark_cases.
  destruct (copied copy_error mkdtemp sample w) as [[[]|e0] w2];
    cbn [fst] in Hc; [|discriminate].
  destruct (tool _ _ _) as [[o e'] f']. cbn [fst snd trace]. eauto.
Qed.

(** X5: the result is the ['Timeout'] error exactly when the tool was
    started and outlived the time limit; no other way the copy, the tool
    or the extraction can end is reported as a timeout. *)
Theorem timeout_iff_expired sample serial (w : world env) :
  fst (run sample serial w) = Ok (Error Timeout) <->
  tool_outcome tool mkdtemp copy_error sample serial w = Some Expired.
Proof.
  rewrite run_benchmark_cases. unfold tool_outcome, tool_call.
  destruct (copied copy_error mkdtemp sample w) as [[[]|e0] w2].
  2:{ cbn [fst]. split; discriminate. }
  destruct (tool _ _ _) as [[o e'] f']. cbn [fst snd].
  destruct o as [rc out| |dt]; [destruct rc as [|rc|rc]| |]; cbn [outcome_result];
    try (split; discriminate); [|by split].
  destruct (extract_metric decimal out (lit "运行时间")) as [t|ex];
    [|split; discriminate].
  destruct (extract_metric decimal out (lit "处理速度")) as [s|ex];
    split; discriminate.
Qed.

(** The run of a tool that was started, by the way it ended. *)
Lemma run_benchmark_outcome sample serial (w : world env) o :
  tool_outcome tool mkdtemp copy_error sample serial w = Some o ->
  fst (run sample serial w) = Ok (outcome_result decimal o).
Proof.
  rewrite run_benchmark_cases. unfold tool_outcome, tool_call.
  destruct (copied copy_error mkdtemp sample w) as [[[]|e0] w2]; [|discriminate].
  destruct (tool _ _ _) as [[o' e'] f']. by intros [= ->].
Qed.

(** X6: a status other than 0 gives an error result that carries the
    status; the output is not searched for metrics, even if it holds
    them. *)
Theorem failed_status_is_an_error sample serial (w : world env) rc out :
  tool_outcome tool mkdtemp copy_error sample serial w = Some (Exited rc out) ->
  rc <> 0%Z ->
  fst (run sample serial w) = Ok (Error (Text (CalledProcessError rc))).
Proof.
  intros Ho Hrc. rewrite (run_benchmark_outcome _ _ _ _ Ho). by destruct rc.
Qed.

(** X7: an exception of the extractor does not leave [run_benchmark]: when
    the tool ends with status 0 and reading the run time, or else the
    throughput, raises, the result is an error result with that
    exception. *)
Theorem extractor_exception_is_caught sample serial (w : world env) out e :
  tool_outcome tool mkdtemp copy_error sample serial w = Some (Exited 0 out) ->
  extract_metric decimal out (lit "运行时间") = Raise e \/
  (is_Some_ok (extract_metric decimal out (lit "运行时间")) /\
   extract_metric decimal out (lit "处理速度") = Raise e) ->
  fst (run sample serial w) = Ok (Error (Text e)).
Proof.
  intros Ho He. rewrite (run_benchmark_outcome _ _ _ _ Ho). cbn [outcome_result].
  destruct He as [-> | [Hok ->]]; [reflexivity|].
  by destruct (extract_metric decimal out (lit "运行时间")).
Qed.

Lemma scan_lines_no_label (lines : list str) (metric_name : str) :
  Forall (fun l => contains l metric_name = false) lines ->
  scan_lines decimal lines metric_name = Ok None.
Proof.
  induction 1 as [|l lines Hl _ IH]; cbn; [reflexivity|]. by rewrite Hl.
Qed.

(** X8: a tool that ends with status 0 and whose output names neither
    metric is a success, not an error: the result has both metrics [None]
    and keeps the first 500 characters of the output. *)
Theorem silent_success_has_no_metrics sample serial (w : world env) out :
  tool_outcome tool mkdtemp copy_error sample serial w = Some (Exited 0 out) ->
  Forall (fun l => contains l (lit "运行时间") = false /\
                   contains l (lit "处理速度") = false) (split NEWLINE out) ->
  fst (run sample serial w) = Ok (Metrics None None (firstn 500 out)).
Proof.
  intros Ho Hno. rewrite (run_benchmark_outcome _ _ _ _ Ho).
  cbn [outcome_result]. unfold extract_metric.
  rewrite !scan_lines_no_label; [reflexivity| |];
    (eapply Forall_impl; [exact Hno|]); by intros l [? ?].
Qed.

(** X9: [run_benchmark] itself changes no file outside its scratch
    directory: after the run every path that is not in or below the
    scratch directory is as the tool left it, and as it was before the run
    when the copy raised and the tool was not started. *)
Theorem files_outside_scratch sample serial (w : world env) p :
  under (tmpdir_of w) p = false ->
  files (snd (run sample serial w)) !! p =
  files_left tool mkdtemp copy_error sample serial w !! p.
Proof.
  intros Hp. rewrite run_benchmark_cases. unfold files_left, tool_call.
  destruct (copied copy_error mkdtemp sample w) as [[[]|e0] w2] eqn:Ec.
  - destruct (tool _ _ _) as [[o e'] f']. cbn [snd files].
    by apply rmtree_lookup_outside.
  - cbn [snd files]. rewrite rmtree_lookup_outside by exact Hp.
    revert Ec. unfold copied, scratch_made, copy2.
    destruct (mkdtemp (outside w) (files w)) as [d e1]. cbn [fst files outside] in *.
    assert (files w !! p = (<[d := {| is_dir := true; st_size := 0 |}]> (files w)) !! p)
      as Hd.
    { rewrite lookup_insert_ne; [reflexivity|]. intros <-.
      rewrite under_refl in Hp. discriminate. }
    destruct (_ !! sample) as [n|]; [|intros [= _ <-]; by rewrite Hd].
    destruct (is_dir n); [intros [= _ <-]; by rewrite Hd|].
    destruct (copy_error _ _ _); [intros [= _ <-]; by rewrite Hd | discriminate].
Qed.

(** *** More on the comparative runner *)

(** X10: the guard of the speed-up expression rules out a division by
    zero for every pair of metrics, absent ones included; with the serial
    time present the expression raises nothing at all. *)
Theorem speedup_never_divides_by_zero (s p : metric) :
  speedup_of s p <> Raise ZeroDivisionError /\
  (is_Some s -> is_Some_ok (speedup_of s p)).
Proof.
  unfold speedup_of, truthy, truediv, float_truthy.
  destruct p as [y|]; cbn [negb]; [|split; [discriminate | by intros _]].
  destruct (y =? 0)%float; cbn [negb]; [split; [discriminate | by intros _]|].
  destruct s as [x|]; cbn [rbind]; split; try discriminate; try (by intros _).
  intros [x H]. discriminate H.
Qed.

(** What a turn that returns has done to [results]. *)
Lemma turn_record total idx sample results (w : world env) rs :
  fst (turn total idx sample results w) = Ok rs ->
  exists n, files w !! sample = Some n /\
    (rs = results \/
     exists r, rs = results ++ [r] /\ name r = path_name sample /\
               size_mb r = st_size n / (1024 * 1024) /\ complete r).
Proof.
  destruct (files w !! sample) as [n|] eqn:Hn.
  2:{ cbv beta iota zeta delta [sample_turn bind stat]. rewrite Hn. discriminate. }
  intros H. exists n. split; [reflexivity|]. revert H.
  rewrite (turn_unfold _ _ _ _ _ _ Hn).
  destruct (run sample true _) as [[[s_time s_speed o1|e1]|ex1] w1];
    cbn [fst]; [| intros [= <-]; by left | discriminate].
  destruct s_time as [ts|]; [|discriminate].
  destruct s_speed as [vs|]; [|discriminate].
  cbv zeta.
  destruct (run sample false _) as [[[p_time p_speed o3|e3]|ex3] w3];
    cbn [fst]; [| intros [= <-]; by left | discriminate].
  destruct p_time as [tp|]; [|discriminate].
  destruct p_speed as [vp|]; [|discriminate].
  cbn [fst]. intros [= <-]. right. eexists. split; [reflexivity|].
  cbn [name size_mb]. split; [reflexivity|]. split; [reflexivity|].
  unfold complete. cbn. eauto.
Qed.

(** X11: a record carries the name of its sample and the size that [stat]
    reported before the runs, in whole mebibytes rounded down; all four
    of its metrics are present. *)
Theorem record_of_a_turn total idx sample results (w : world env) n rs :
  files w !! sample = Some n ->
  fst (turn total idx sample results w) = Ok rs ->
  rs = results \/
  exists r, rs = results ++ [r] /\ name r = path_name sample /\
            size_mb r * 1048576 <= st_size n < (size_mb r + 1) * 1048576 /\
            complete r.
Proof.
  intros Hn H. destruct (turn_record _ _ _ _ _ _ H) as (n' & Hn' & [->|Hr]);
    [by left|].
  rewrite Hn in Hn'. injection Hn' as <-.
  destruct Hr as (r & -> & Hname & Hsize & Hc). right. exists r.
  split; [reflexivity|]. split; [exact Hname|]. split; [|exact Hc].
  rewrite Hsize. change (1024 * 1024) with 1048576.
  pose proof (N.div_mod (st_size n) 1048576 ltac:(discriminate)) as Hdm.
  pose proof (N.mod_lt (st_size n) 1048576 ltac:(discriminate)) as Hlt.
  revert Hdm Hlt.
  generalize (st_size n / 1048576), (st_size n mod 1048576). intros q m. lia.
Qed.

(** X12: the loop only ever appends to [results]: what was collected
    stays, in place, and the new records are complete and name samples of
    the list in the order of the list, each sample at most once. *)
Theorem loop_extends_results total idx samples results (w : world env) rs :
  fst (loop total idx samples results w) = Ok rs ->
  exists new,
    rs = results ++ new /\
    List.map name new `sublist_of` List.map path_name samples /\
    Forall complete new.
Proof.
  revert idx results w. induction samples as [|sample rest IH]; intros idx results w.
  - cbn. intros [= <-]. exists []. rewrite app_nil_r.
    split; [reflexivity|]. split; [constructor | constructor].
  - cbn [sample_loop]. unfold bind.
    destruct (turn total idx sample results w) as [[rs1|e] w1] eqn:E; [|discriminate].
    intros H. destruct (IH _ _ _ H) as (new & -> & Hsub & Hc).
    destruct (turn_record total idx sample results w rs1) as (n & _ & [->|Hr]).
    + by rewrite E.
    + exists new. split; [reflexivity|]. split; [|exact Hc].
      cbn [List.map]. by apply sublist_cons.
    + destruct Hr as (r & -> & Hname & _ & Hr).
      exists (r :: new). rewrite <- app_assoc. split; [reflexivity|].
      split; [|by constructor].
      cbn [List.map]. rewrite Hname. by apply sublist_skip.
Qed.

(** X13: an error result of the serial run, a timeout as much as any
    other, does not end the loop: the failure is printed and the loop goes
    on with the next sample and the same [results]. *)
Theorem serial_error_goes_on total idx sample rest results (w w1 : world env) n e :
  files w !! sample = Some n ->
  run sample true (serial_start total idx sample n w) = (Ok (Error e), w1) ->
  loop total idx (sample :: rest) results w =
  loop total (S idx) rest results (after w1 [Print (Failure e)]).
Proof.
  intros Hn Hrun. cbn [sample_loop]. unfold bind at 1.
  rewrite (turn_unfold _ _ _ _ _ _ Hn), Hrun. reflexivity.
Qed.

(** X14: an error result of the parallel run drops the sample although
    its serial run came back with both metrics: nothing is appended, and
    the loop goes on with the next sample. *)
Theorem parallel_error_drops_sample total idx sample rest results
    (w w1 w3 : world env) n ts vs o e :
  files w !! sample = Some n ->
  run sample true (serial_start total idx sample n w)
    = (Ok (Metrics (Some ts) (Some vs) o), w1) ->
  run sample false
      (after w1 [Print (Success ts vs); Sleep 2; Print (ModeStart false)])
    = (Ok (Error e), w3) ->
  loop total idx (sample :: rest) results w =
  loop total (S idx) rest results (after w3 [Print (Failure e)]).
Proof.
  intros Hn Hs Hp. cbn [sample_loop]. unfold bind at 1.
  rewrite (turn_unfold _ _ _ _ _ _ Hn), Hs. cbv zeta. rewrite Hp. reflexivity.
Qed.

(** X15: a sample that is gone when its turn comes ends the whole loop at
    [stat]: [FileNotFoundError] is raised before a line is printed or the
    tool is run for it, and the samples after it are not visited. *)
Theorem vanished_sample_ends_loop total idx sample rest results (w : world env) :
  files w !! sample = None ->
  loop total idx (sample :: rest) results w = (Raise (FileNotFoundError sample), w).
Proof.
  intros Hn. cbn [sample_loop].
  cbv beta iota zeta delta [sample_turn bind stat]. by rewrite Hn.
Qed.

Lemma commands_app (a b : list event) : commands (a ++ b) = commands a ++ commands b.
Proof.
  induction a as [|ev a IH]; cbn; [reflexivity|].
  destruct ev; cbn; by rewrite IH.
Qed.

(** A run that returns has started the tool. *)
Lemma run_benchmark_ok_trace sample serial (w : world env) r :
  fst (run sample serial w) = Ok r ->
  trace (snd (run sample serial w)) = trace w ++ [Run (command (tmpdir_of w) serial)].
Proof.
  unfold run_benchmark, with_TemporaryDirectory, bind, copy2, try_except,
    check_output, lift, ret.
  destruct (mkdtemp (outside w) (files w)) as [d e1]. cbn [fst files outside trace].
  destruct (_ !! sample) as [n|]; [|discriminate].
  destruct (is_dir n); [discriminate|].
  destruct (copy_error _ _ _); [discriminate|]. cbn [files outside trace].
  destruct (tool _ _ _) as [[o e'] f'].
  destruct o as [rc out| |dt]; [destruct rc as [|rc|rc]| |];
    cbn [fst snd trace]; try reflexivity.
  destruct (extract_metric decimal out _) as [t|ex]; [|destruct ex; reflexivity].
  destruct (extract_metric decimal out _) as [s|ex]; [|destruct ex; reflexivity].
  reflexivity.
Qed.

(** The events of a turn, by the commands among them: none, the serial
    command alone, or the serial command, the report of its success, the
    pause, and the parallel command. *)
Lemma turn_events total idx sample results (w : world env) n :
  files w !! sample = Some n ->
  exists evs,
    trace (snd (turn total idx sample results w)) = trace w ++ evs /\
    (commands evs = [] \/
     (exists cs, commands evs = [cs] /\ serial_command cs) \/
     (exists pre cs ts vs cp post,
        evs = pre ++ [Run cs; Print (Success ts vs); Sleep 2;
                      Print (ModeStart false); Run cp] ++ post /\
        commands pre = [] /\ commands post = [] /\
        serial_command cs /\ ~ serial_command cp)).
Proof.
  intros Hn. rewrite (turn_unfold _ _ _ _ _ _ Hn).
  set (ws := serial_start total idx sample n w).
  assert (serial_command (command (tmpdir_of ws) true)) as Hcs
    by (by apply serial_flag_in_command).
  assert (forall d, ~ serial_command (command d false)) as Hcp
    by (intros d H; by apply serial_flag_in_command in H).
  assert (trace ws = trace w ++
            [Print (Testing idx total (path_name sample) (st_size n / (1024 * 1024)));
             Print (Rule false); Print (ModeStart true)]) as Hws by reflexivity.
  pose proof (run_benchmark_trace sample true ws) as Htr.
  pose proof (run_benchmark_ok_trace sample true ws) as Hok.
  destruct (run sample true ws) as [[r1|ex1] w1]; cbn [fst snd] in *.
  2:{ (* the serial run raised *)
      destruct Htr as [Htr|Htr]; rewrite Htr, Hws; rewrite <- ?app_assoc;
        (eexists; split; [reflexivity|]); cbn [app commands]; [by left|].
      right; left. eauto. }
  specialize (Hok r1 eq_refl). rewrite Hws in Hok. rewrite <- app_assoc in Hok.
  cbn [app] in Hok.
  destruct r1 as [s_time s_speed o1|e1].
  2:{ (* the serial run failed *)
      cbn [snd after trace]. rewrite Hok, <- app_assoc.
      eexists; split; [reflexivity|]. cbn [app commands]. right; left. eauto. }
  destruct s_time as [ts|];
    [|cbn [snd]; rewrite Hok; eexists; split; [reflexivity|];
      cbn [app commands]; right; left; eauto].
  destruct s_speed as [vs|];
    [|cbn [snd]; rewrite Hok; eexists; split; [reflexivity|];
      cbn [app commands]; right; left; eauto].
  cbv zeta.
  set (w2 := after w1 [Print (Success ts vs); Sleep 2; Print (ModeStart false)]).
  assert (trace w2 = trace w ++
            [Print (Testing idx total (path_name sample) (st_size n / (1024 * 1024)));
             Print (Rule false); Print (ModeStart true);
             Run (command (tmpdir_of ws) true);
             Print (Success ts vs); Sleep 2; Print (ModeStart false)]) as Hw2.
  { unfold w2. cbn [after trace]. rewrite Hok, <- app_assoc. reflexivity. }
  pose proof (run_benchmark_trace sample false w2) as Htr2.
  pose proof (run_benchmark_ok_trace sample false w2) as Hok2.
  destruct (run sample false w2) as [[r3|ex3] w3]; cbn [fst snd] in *.
  2:{ (* the parallel run raised *)
      destruct Htr2 as [Htr2|Htr2]; rewrite Htr2, Hw2; rewrite <- ?app_assoc;
        (eexists; split; [reflexivity|]); cbn [app commands].
      - right; left. eauto.
      - right; right.
        exists [Print (Testing idx total (path_name sample) (st_size n / (1024 * 1024)));
                Print (Rule false); Print (ModeStart true)],
               (command (tmpdir_of ws) true), ts, vs, (command (tmpdir_of w2) false), [].
        repeat split; [exact Hcs | apply Hcp]. }
  specialize (Hok2 r3 eq_refl). rewrite Hw2 in Hok2. rewrite <- app_assoc in Hok2.
  cbn [app] in Hok2.
  assert (forall post (w' : world env),
            trace w' = trace w3 ++ post -> commands post = [] ->
            exists evs,
              trace w' = trace w ++ evs /\
              (commands evs = [] \/
               (exists cs, commands evs = [cs] /\ serial_command cs) \/
               (exists pre cs ts vs cp post,
                  evs = pre ++ [Run cs; Print (Success ts vs); Sleep 2;
                                Print (ModeStart false); Run cp] ++ post /\
                  commands pre = [] /\ commands post = [] /\
                  serial_command cs /\ ~ serial_command cp))) as Hend.
  { intros post w' Hw' Hpost. rewrite Hw', Hok2, <- app_assoc.
    eexists; split; [reflexivity|]. right; right.
    exists [Print (Testing idx total (path_name sample) (st_size n / (1024 * 1024)));
            Print (Rule false); Print (ModeStart true)],
           (command (tmpdir_of ws) true), ts, vs, (command (tmpdir_of w2) false), post.
    repeat split; [exact Hpost | exact Hcs | apply Hcp]. }
  destruct r3 as [p_time p_speed o3|e3].
  2:{ apply (Hend [Print (Failure e3)]); reflexivity. }
  destruct p_time as [tp|]; [|apply (Hend []); [by rewrite app_nil_r | reflexivity]].
  destruct p_speed as [vp|]; [|apply (Hend []); [by rewrite app_nil_r | reflexivity]].
  cbn [snd]. eapply Hend; [reflexivity | reflexivity].
Qed.

(** X16: the parallel run of a sample is never started cold: whenever a
    turn runs a command without the serial flag, that command comes right
    after the serial command of the same turn, the report of its success,
    a pause of two seconds and the announcement of the parallel mode. *)
Theorem parallel_run_follows_cooldown total idx sample results (w : world env) n :
  files w !! sample = Some n ->
  exists evs,
    trace (snd (turn total idx sample results w)) = trace w ++ evs /\
    forall cmd,
      In cmd (commands evs) -> ~ serial_command cmd ->
      exists pre cs ts vs post,
        evs = pre ++ [Run cs; Print (Success ts vs); Sleep 2;
                      Print (ModeStart false); Run cmd] ++ post /\
        serial_command cs /\ commands pre = [] /\ commands post = [].
Proof.
  intros Hn. destruct (turn_events total idx sample results w n Hn)
    as (evs & Htr & Hcases).
  exists evs. split; [exact Htr|]. intros cmd Hin Hpar.
  destruct Hcases as [H|[(cs & H & Hcs)|(pre & cs & ts & vs & cp & post & H)]].
  - rewrite H in Hin. destruct Hin.
  - rewrite H in Hin. destruct Hin as [<-|[]]. contradiction.
  - destruct H as (-> & Hpre & Hpost & Hcs & Hcp).
    rewrite !commands_app, Hpre, Hpost in Hin. cbn in Hin.
    destruct Hin as [<-|[<-|[]]]; [contradiction|].
    exists pre, cs, ts, vs, post. auto.
Qed.

Lemma turn_commands_bound total idx sample results (w : world env) :
  exists evs,
    trace (snd (turn total idx sample results w)) = trace w ++ evs /\
    (length (commands evs) <= 2)%nat.
Proof.
  destruct (files w !! sample) as [n|] eqn:Hn.
  - destruct (turn_events total idx sample results w n Hn) as (evs & Htr & Hcases).
    exists evs. split; [exact Htr|].
    destruct Hcases as [H|[(cs & H & _)|(pre & cs & ts & vs & cp & post & H)]].
    + rewrite H. cbn. lia.
    + rewrite H. cbn. lia.
    + destruct H as (-> & Hpre & Hpost & _).
      rewrite !commands_app, Hpre, Hpost. cbn. lia.
  - exists []. cbv beta iota zeta delta [sample_turn bind stat]. rewrite Hn.
    cbn. rewrite app_nil_r. split; [reflexivity | lia].
Qed.

(** X17: the loop starts the external tool at most twice for each sample
    of the list, however the runs end. *)
Theorem loop_runs_tool_at_most_twice total idx samples results (w : world env) :
  exists evs,
    trace (snd (loop total idx samples results w)) = trace w ++ evs /\
    (length (commands evs) <= 2 * length samples)%nat.
Proof.
  revert idx results w. induction samples as [|sample rest IH]; intros idx results w.
  - exists []. cbn. rewrite app_nil_r. split; [reflexivity | lia].
  - cbn [sample_loop]. unfold bind.
    destruct (turn_commands_bound total idx sample results w) as (evs1 & Htr1 & Hb1).
    destruct (turn total idx sample results w) as [[rs1|e] w1]; cbn [snd] in Htr1.
    + destruct (IH (S idx) rs1 w1) as (evs2 & Htr2 & Hb2).
      exists (evs1 ++ evs2). rewrite Htr2, Htr1, <- app_assoc.
      split; [reflexivity|]. rewrite commands_app, length_app. cbn [length]. lia.
    + exists evs1. cbn [snd]. split; [exact Htr1|]. cbn [length]. lia.
Qed.

(** *** More on the size-bucket report *)

Lemma size_classes_partition (results : list comparison) :
  let small := List.filter (fun r => size_mb r <? 100) results in
  let medium :=
    List.filter (fun r => (100 <=? size_mb r) && (size_mb r <? 400)) results in
  let large := List.filter (fun r => 400 <=? size_mb r) results in
  (length small + length medium + length large)%nat = length results.
Proof.
  cbv zeta. induction results as [|r results IH]; [reflexivity|]. cbn [List.filter].
  destruct (N.ltb_spec (size_mb r) 100), (N.ltb_spec (size_mb r) 400),
    (N.leb_spec 100 (size_mb r)), (N.leb_spec 400 (size_mb r));
    cbn [andb length]; lia.
Qed.

Lemma counted_bucket_lines (b : bucket) (ms : list comparison) :
  list_sum (List.map counted
              (List.map Print
                 match ms with
                 | [] => []
                 | _ => [BucketLine b (length ms) (mean_speedup ms)]
                 end)) = length ms.
Proof. destruct ms; cbn; lia. Qed.

(** X18: the three size classes leave no record out and count none
    twice: the report raises nothing, and the counts of the lines it
    prints add up to the number of records. *)
Theorem every_record_is_counted_once (results : list comparison) (w : world env) :
  exists evs,
    analysis results w = (Ok tt, after w evs) /\
    list_sum (List.map counted evs) = length results.
Proof.
  unfold analysis, bind. rewrite !print_bucket_summary, !after_after.
  eexists. split; [reflexivity|].
  rewrite !List.map_app, !list_sum_app, !counted_bucket_lines.
  rewrite Nat.add_assoc. apply size_classes_partition.
Qed.

(** *** More on [main] *)

Lemma print_rows_complete (rs : list comparison) (w : world env) :
  Forall complete rs -> exists evs, print_rows rs w = (Ok tt, after w evs).
Proof.
  intros H. revert w. induction H as [|r rs Hr _ IH]; intros w.
  - exists []. cbn. unfold ret. by rewrite after_nil.
  - destruct Hr as ([s Hs] & [p Hp] & _). cbn [print_rows].
    unfold bind, lift, format_2f. rewrite Hs, Hp. unfold print, emit.
    destruct (IH (after w [Print (Row (name r) (size_mb r) s p (speedup r))]))
      as (evs & Hevs).
    unfold after in Hevs at 1. rewrite Hevs, after_after. eauto.
Qed.

Lemma analysis_returns (rs : list comparison) (w : world env) :
  exists evs, analysis rs w = (Ok tt, after w evs).
Proof.
  unfold analysis, bind. rewrite !print_bucket_summary, !after_after. eauto.
Qed.

Lemma loop_complete total idx samples (w : world env) rs :
  fst (loop total idx samples [] w) = Ok rs -> Forall complete rs.
Proof.
  intros H. eapply loop_keeps; [|exact H|constructor].
  intros i sample results w0 rs0 H0.
  destruct (turn_record _ _ _ _ _ _ H0) as (n & _ & [->|(r & -> & _ & _ & Hr)]);
    [by left | right; eauto].
Qed.

(** X19: [main] raises only what the loop over the samples raises: once
    the loop is through, the table and the size-bucket report print
    without an exception, because every record has both times present and
    every class that is averaged has a record. *)
Theorem main_fails_only_in_loop (w : world env) (samples : list path) (e : exn) :
  fst (glob_flac SAMPLES_DIR w) = Ok samples ->
  fst (main decimal tool mkdtemp copy_error w) = Raise e <->
  fst (loop (length samples) 1 samples [] (loop_start samples w)) = Raise e.
Proof.
  intros Hglob.
  cbv beta iota zeta delta [main bind print emit]. cbn [files outside trace].
  rewrite (glob_flac_result SAMPLES_DIR w) by reflexivity. rewrite Hglob.
  cbn [files outside trace]. rewrite <- !app_assoc. cbn [app].
  change {| files := files w; outside := outside w; trace := trace w ++ _ |}
    with (loop_start samples w).
  destruct (loop (length samples) 1 samples [] (loop_start samples w))
    as [[rs|e'] w1] eqn:E; cbn [fst]; [|split; intros [= <-]; reflexivity].
  split; [|discriminate]. intros H. exfalso.
  assert (Forall complete rs) as Hc by (eapply loop_complete; by rewrite E).
  revert H. cbn [files outside trace].
  match goal with
  | |- context [print_rows rs ?w0] =>
      destruct (print_rows_complete rs w0 Hc) as (evs & ->)
  end.
  cbn [after files outside trace].
  match goal with
  | |- context [analysis rs ?w0] =>
      destruct (analysis_returns rs w0) as (evs2 & ->)
  end.
  cbn [fst]. discriminate.
Qed.

(** *** More on the sample enumerator *)

Lemma str_leb_total (a b : str) : str_leb a b = false -> str_leb b a = true.
Proof.
  revert b. induction a as [|x a IH]; intros [|y b]; cbn; try discriminate;
    [reflexivity|].
  destruct (N.ltb_spec x y), (N.ltb_spec y x), (N.eqb_spec x y), (N.eqb_spec y x);
    cbn; try discriminate; try reflexivity; try lia.
  apply IH.
Qed.

Lemma path_leb_total (a b : path) : path_leb a b = false -> path_leb b a = true.
Proof.
  revert b. induction a as [|x a IH]; intros [|y b]; cbn; try discriminate;
    [reflexivity|].
  destruct (str_leb x y) eqn:Exy, (str_leb y x) eqn:Eyx;
    try discriminate; try reflexivity; [apply IH|].
  apply str_leb_total in Exy. congruence.
Qed.

Lemma insert_sorted_perm (p : path) (l : list path) : insert_sorted p l ≡ₚ p :: l.
Proof.
  induction l as [|q l IH]; cbn; [reflexivity|].
  destruct (path_leb p q); [reflexivity|]. rewrite IH. apply Permutation_swap.
Qed.

Lemma sorted_perm (l : list path) : sorted l ≡ₚ l.
Proof.
  induction l as [|p l IH]; cbn; [reflexivity|].
  rewrite insert_sorted_perm. by rewrite IH.
Qed.

Lemma insert_sorted_Sorted (p : path) (l : list path) :
  Sorted (fun a b => path_leb a b = true) l ->
  Sorted (fun a b => path_leb a b = true) (insert_sorted p l).
Proof.
  induction 1 as [|q l Hs IH Hhd]; cbn; [repeat constructor|].
  destruct (path_leb p q) eqn:E.
  - constructor; [by constructor | by constructor].
  - constructor; [exact IH|].
    destruct Hhd as [|r l Hqr]; cbn.
    + constructor. by apply path_leb_total.
    + destruct (path_leb p r); constructor; [by apply path_leb_total | exact Hqr].
Qed.

Lemma sorted_Sorted (l : list path) : Sorted (fun a b => path_leb a b = true) (sorted l).
Proof.
  induction l as [|p l IH]; cbn; [constructor|]. by apply insert_sorted_Sorted.
Qed.

Lemma under_child (d p : path) :
  under d p = true /\ length p = S (length d) <-> exists c, p = d ++ [c].
Proof.
  revert p. induction d as [|x d IH]; intros p.
  - cbn. split.
    + intros [_ H]. destruct p as [|c [|c' p]]; try discriminate. eauto.
    + intros [c ->]. auto.
  - destruct p as [|y p]; cbn [under length app].
    { split; [intros [H _]; discriminate H | intros [c H]; discriminate H]. }
    destruct (decide (x = y)) as [->|Hne].
    + split.
      * intros [H1 H2]. injection H2 as H2.
        destruct (proj1 (IH p) (conj H1 H2)) as [c ->]. by exists c.
      * intros [c H]. injection H as ->.
        destruct (proj2 (IH (d ++ [c])) (ex_intro _ c eq_refl)) as [H1 H2].
        split; [exact H1 | by rewrite H2].
    + split; [intros [H _]; discriminate H|].
      intros [c H]. injection H as <- _. done.
Qed.

Lemma flac_child_spec (d p : path) :
  flac_child d p = true <->
  exists c, p = d ++ [c] /\ endswith c (lit ".flac") = true.
Proof.
  unfold flac_child. rewrite !andb_true_iff, Nat.eqb_eq. split.
  - intros [[Hlen Hunder] Hend].
    destruct (proj1 (under_child d p) (conj Hunder Hlen)) as [c ->].
    exists c. split; [reflexivity|]. unfold path_name in Hend.
    by rewrite List.last_last in Hend.
  - intros (c & -> & Hend).
    destruct (proj2 (under_child d (d ++ [c])) (ex_intro _ c eq_refl)) as [Hu Hl].
    repeat split; [exact Hl | exact Hu |]. unfold path_name.
    by rewrite List.last_last.
Qed.

Lemma keys_of_files (f : gmap path node) (p : path) :
  In p (List.map fst (map_to_list f)) <-> is_Some (f !! p).
Proof.
  rewrite in_map_iff. split.
  - intros ([q n] & <- & Hin). apply list_elem_of_In, elem_of_map_to_list in Hin.
    cbn. eauto.
  - intros [n Hn]. exists (p, n). split; [reflexivity|].
    by apply list_elem_of_In, elem_of_map_to_list.
Qed.

Lemma keys_of_files_NoDup (f : gmap path node) : NoDup (List.map fst (map_to_list f)).
Proof.
  assert (forall l : list (path * node), List.map fst l = l.*1) as ->.
  { induction l as [|x l IH]; cbn; [reflexivity|]. by rewrite IH. }
  apply NoDup_fst_map_to_list.
Qed.

(** X20: when the samples directory is a directory, the enumeration
    yields exactly its entries whose name ends in [.flac], directories
    among them, each once and in the order of their paths; entries of
    other names and entries further down are not listed, and the files
    are left as they are. *)
Theorem enumeration_of_samples (d : path) (w : world env) (n : node) :
  files w !! d = Some n -> is_dir n = true ->
  exists samples,
    glob_flac d w = (Ok samples, w) /\
    NoDup samples /\
    Sorted (fun a b => path_leb a b = true) samples /\
    forall p, In p samples <->
              is_Some (files w !! p) /\
              exists c, p = d ++ [c] /\ endswith c (lit ".flac") = true.
Proof.
  intros Hd Hdir. unfold glob_flac. rewrite Hd. destruct n as [dir sz].
  cbn in Hdir. subst dir. eexists. split; [reflexivity|].
  split; [|split; [apply sorted_Sorted|]].
  - rewrite sorted_perm.
    apply (sublist_NoDup _ (List.map fst (map_to_list (files w))));
      [apply keys_of_files_NoDup|].
    induction (List.map fst (map_to_list (files w))) as [|q l IH]; cbn;
      [constructor|].
    destruct (flac_child d q); [by apply sublist_skip | by apply sublist_cons].
  - intros p. rewrite <- flac_child_spec, <- keys_of_files.
    rewrite <- (List.filter_In (flac_child d)).
    split; intros H.
    + apply list_elem_of_In. rewrite <- sorted_perm. by apply list_elem_of_In.
    + apply list_elem_of_In. rewrite sorted_perm. by apply list_elem_of_In.
Qed.

(** *** Signs of the numbers of a record *)

Lemma binary_round_aux_clear m e l :
  sf_sign_clear (binary_round_aux prec emax false m e l).
Proof.
  unfold binary_round_aux.
  destruct (shr_fexp prec emax m e l) as [r1 e1].
  destruct (shr_fexp prec emax _ e1 loc_Exact) as [r2 e2].
  destruct (shr_m r2); [reflexivity | | exact I].
  destruct (e2 <=? emax - prec)%Z; reflexivity.
Qed.

Lemma binary_round_clear m e : sf_sign_clear (binary_round prec emax false m e).
Proof.
  unfold binary_round. destruct (shl_align _ _ _) as [mz ez].
  apply binary_round_aux_clear.
Qed.

Lemma SF2Prim_clear x : sf_sign_clear x -> sf_sign_clear (Prim2SF (SF2Prim x)).
Proof.
  destruct x as [s|s| |s m e]; cbn [sf_sign_clear SF2Prim]; intros H.
  - subst s. vm_compute. reflexivity.
  - subst s. vm_compute. reflexivity.
  - vm_compute. exact I.
  - subst s. rewrite Z_ldexp_spec, of_uint63_spec.
    pose proof (Uint63.to_Z_bounded (Uint63.of_Z (Z.pos m))) as [Hn _].
    destruct (Uint63.to_Z (Uint63.of_Z (Z.pos m))) as [|p|p]; cbn;
      [reflexivity | | lia].
    pose proof (binary_round_clear p 0) as Hb.
    destruct (binary_round prec emax false p 0) as [s|s| |s m' e']; cbn in *;
      try assumption.
    subst s. apply binary_round_clear.
Qed.

Lemma float_of_ratio_clear num den : sf_sign_clear (Prim2SF (float_of_ratio num den)).
Proof.
  unfold float_of_ratio.
  destruct (SFdiv_core_binary prec emax num 0 den 0) as [[q e] l].
  apply SF2Prim_clear, binary_round_aux_clear.
Qed.

Lemma SFdiv_clear x y :
  sf_sign_clear x -> sf_sign_clear y -> sf_sign_clear (SFdiv prec emax x y).
Proof.
  destruct x as [sx|sx| |sx mx ex], y as [sy|sy| |sy my ey]; cbn;
    intros Hx Hy; subst; try reflexivity; try exact I.
  destruct (SFdiv_core_binary prec emax (Z.pos mx) ex (Z.pos my) ey) as [[mz ez] lz].
  apply binary_round_aux_clear.
Qed.

Lemma sf_sign_clear_not_below_zero (x : float) :
  sf_sign_clear (Prim2SF x) -> (x <? 0)%float = false.
Proof.
  intros H. rewrite FloatAxioms.ltb_spec. change (Prim2SF 0) with (S754_zero false).
  destruct (Prim2SF x) as [s|s| |s m e]; cbn in *; subst; reflexivity.
Qed.

Lemma scan_lines_clear (lines : list str) (metric_name : str) (x : float) :
  scan_lines decimal lines metric_name = Ok (Some x) -> sf_sign_clear (Prim2SF x).
Proof.
  induction lines as [|l lines IH]; cbn; [discriminate|].
  destruct (contains l metric_name); [|exact IH].
  destruct (search_number decimal (remove COMMA l)) as [tok|]; [|exact IH].
  unfold float_of_str.
  destruct (read_literal decimal tok _) as [lt|]; [|discriminate].
  destruct (digits lt) as [|nd]; [discriminate|].
  destruct (points lt) as [|[|np]]; cbn; try discriminate;
    intros [= <-]; apply float_of_ratio_clear.
Qed.

(** The metrics of a run have a clear sign bit. *)
Lemma run_benchmark_metrics_clear sample serial (w : world env) t s o :
  fst (run sample serial w) = Ok (Metrics (Some t) s o) ->
  sf_sign_clear (Prim2SF t).
Proof.
  unfold run_benchmark, with_TemporaryDirectory, bind, copy2, try_except,
    check_output, lift, ret.
  destruct (mkdtemp (outside w) (files w)) as [d e1]. cbn [files outside trace].
  destruct (_ !! sample) as [n|]; [|discriminate].
  destruct (is_dir n); [discriminate|].
  destruct (copy_error _ _ _); [discriminate|]. cbn [files outside trace].
  destruct (tool _ _ _) as [[o' e'] f'].
  destruct o' as [rc out| |dt]; [destruct rc as [|rc|rc]| |];
    cbn [fst snd]; try discriminate.
  destruct (extract_metric decimal out (lit "运行时间")) as [t'|ex] eqn:Et;
    [|destruct ex; discriminate].
  destruct (extract_metric decimal out (lit "处理速度")) as [s'|ex] eqn:Es;
    [|destruct ex; discriminate].
  cbn [fst snd]. intros [= -> <- <-]. eapply scan_lines_clear, Et.
Qed.

Lemma turn_speedup_clear total idx sample results (w : world env) rs :
  fst (turn total idx sample results w) = Ok rs ->
  rs = results \/ exists r, rs = results ++ [r] /\ speedup_clear r.
Proof.
  destruct (files w !! sample) as [n|] eqn:Hn.
  2:{ cbv beta iota zeta delta [sample_turn bind stat]. rewrite Hn. discriminate. }
  rewrite (turn_unfold _ _ _ _ _ _ Hn).
  destruct (run sample true _) as [[[s_time s_speed o1|e1]|ex1] w1] eqn:Es;
    cbn [fst]; [| intros [= <-]; by left | discriminate].
  destruct s_time as [ts|]; [|discriminate].
  destruct s_speed as [vs|]; [|discriminate].
  cbv zeta.
  destruct (run sample false _) as [[[p_time p_speed o3|e3]|ex3] w3] eqn:Ep;
    cbn [fst]; [| intros [= <-]; by left | discriminate].
  destruct p_time as [tp|]; [|discriminate].
  destruct p_speed as [vp|]; [|discriminate].
  cbn [fst]. intros [= <-]. right. eexists. split; [reflexivity|].
  unfold speedup_clear. cbn [speedup].
  destruct (float_truthy tp); cbn [number_clear]; [|exact I].
  rewrite div_spec. apply SFdiv_clear.
  - eapply (run_benchmark_metrics_clear sample true). by rewrite Es.
  - eapply (run_benchmark_metrics_clear sample false). by rewrite Ep.
Qed.

Lemma loop_speedup_clear total idx samples (w : world env) rs :
  fst (loop total idx samples [] w) = Ok rs -> Forall speedup_clear rs.
Proof.
  intros H. eapply loop_keeps; [|exact H|constructor].
  intros. by eapply turn_speedup_clear.
Qed.

(** X21: no record has a speed-up below zero: it is the [int] [0] or a
    float quotient of two numbers read without a sign, which is positive,
    zero, infinite or not a number, but never negative. *)
Theorem speedup_never_negative total idx samples (w : world env) rs :
  fst (loop total idx samples [] w) = Ok rs ->
  Forall (fun r => match speedup r with
                   | Int0 => True
                   | Flt x => (x <? 0)%float = false
                   end) rs.
Proof.
  intros H. eapply Forall_impl; [by eapply loop_speedup_clear|].
  intros r Hr. unfold speedup_clear in Hr.
  destruct (speedup r); [exact I | by apply sf_sign_clear_not_below_zero].
Qed.

Lemma SFadd_clear x y :
  sf_sign_clear x -> sf_sign_clear y -> sf_sign_clear (SFadd prec emax x y).
Proof.
  destruct x as [sx|sx| |sx mx ex], y as [sy|sy| |sy my ey]; cbn;
    intros Hx Hy; subst; try reflexivity; try exact I.
  apply binary_round_clear.
Qed.

Lemma add_clear (a b : number) :
  number_clear a -> number_clear b -> number_clear (add a b).
Proof.
  destruct a as [|x], b as [|y]; cbn; intros Ha Hb; try exact I;
    rewrite add_spec; apply SFadd_clear; try assumption; reflexivity.
Qed.

Lemma sum_clear (xs : list number) : Forall number_clear xs -> number_clear (sum xs).
Proof.
  unfold sum. assert (number_clear Int0) as H0 by exact I. revert H0.
  generalize Int0. induction xs as [|x xs IH]; intros acc Hacc Hall; cbn;
    [exact Hacc|].
  apply Forall_cons in Hall as [Hx Hall]. apply IH; [by apply add_clear | exact Hall].
Qed.

Lemma mean_speedup_clear (ms : list comparison) :
  Forall speedup_clear ms -> (mean_speedup ms <? 0)%float = false.
Proof.
  intros H. apply sf_sign_clear_not_below_zero. unfold mean_speedup.
  assert (number_clear (sum (List.map speedup ms))) as Hs.
  { apply sum_clear. induction H; cbn; constructor; assumption. }
  destruct (sum (List.map speedup ms)) as [|total]; [reflexivity|].
  rewrite div_spec. apply SFdiv_clear; [exact Hs | apply float_of_ratio_clear].
Qed.

Lemma filter_keeps (P : comparison -> Prop) (f : comparison -> bool) rs :
  Forall P rs -> Forall P (List.filter f rs).
Proof.
  induction 1 as [|r rs Hr _ IH]; cbn; [constructor|].
  destruct (f r); [by constructor | exact IH].
Qed.

(** X22: no average that the report prints for the records of the loop is
    below zero. *)
Theorem printed_average_never_negative total idx samples (w w' : world env) rs :
  fst (loop total idx samples [] w) = Ok rs ->
  exists evs,
    analysis rs w' = (Ok tt, after w' evs) /\
    Forall (fun ev => match ev with
                      | Print (BucketLine _ _ avg) => (avg <? 0)%float = false
                      | _ => True
                      end) evs.
Proof.
  intros H. apply loop_speedup_clear in H.
  unfold analysis, bind. rewrite !print_bucket_summary, !after_after.
  eexists. split; [reflexivity|].
  assert (forall b f, Forall (fun ev => match ev with
                                         | Print (BucketLine _ _ avg) =>
                                             (avg <? 0)%float = false
                                         | _ => True
                                         end)
                        (List.map Print
                           match List.filter f rs with
                           | [] => []
                           | _ => [BucketLine b (length (List.filter f rs))
                                     (mean_speedup (List.filter f rs))]
                           end)) as Hb.
  { intros b f. pose proof (filter_keeps _ f _ H) as Hf.
    destruct (List.filter f rs) as [|m ms]; cbn [List.map]; [constructor|].
    constructor; [|constructor]. by apply mean_speedup_clear. }
  apply Forall_app. split; [apply Hb|]. apply Forall_app. split; apply Hb.
Qed.

End Properties.

(** ** Runs on given inputs *)

Section Runs.

Import Concrete.

Local Open Scope float_scope.

(** The extractor on the lines of the specification's examples. *)
Example extract_time_line :
  extract (lit "运行时间: 12.34s") (lit "运行时间") = Ok (Some 0x1.8ae147ae147aep+3).
Proof. vm_compute. reflexivity. Qed.

Example extract_thousands :
  extract (lit "处理速度: 1,234.5 MB/s (8 threads)") (lit "处理速度") = Ok (Some 1234.5).
Proof. vm_compute. reflexivity. Qed.

Example extract_no_digits :
  extract (lit "运行时间: n/a") (lit "运行时间") = Ok None.
Proof. vm_compute. reflexivity. Qed.

Example extract_no_line :
  extract (lit "处理速度: 5 MB/s") (lit "运行时间") = Ok None.
Proof. vm_compute. reflexivity. Qed.

(** C2: on a line that carries the label and whose first run of digits and
    points is not a number, the extractor raises [ValueError]; it does not
    return [None]. *)
Theorem extract_metric_raises_on_malformed_number :
  extract (lit "运行时间: 1.2.3") (lit "运行时间") = Raise (ValueError (lit "1.2.3")) /\
  extract (lit "处理速度 ... 12 MB/s") (lit "处理速度") = Raise (ValueError (lit "...")).
Proof. split; vm_compute; reflexivity. Qed.


(** C3: with two samples to test, the tool's first run ends with status 0
    and an output without the run-time line.  The absent metric is not
    recovered: [main] ends in [TypeError] at the line that reports the
    serial run, the second sample is never started, and neither table nor
    summary is printed. *)
Theorem absent_metric_aborts_run :
  let w := start two_samples
             [Exited 0 (lit "analysis finished"); Exited 0 (report "2.0" "15");
              Exited 0 (report "3.0" "10"); Exited 0 (report "1.5" "20")] in
  fst (script_main w) = Raise TypeError /\
  trace (snd (script_main w)) =
    [Print Banner; Print (Rule true); Print (Found 2); Print Blank;
     Print (Testing 1 2 (lit "a.flac") 50); Print (Rule false);
     Print (ModeStart true); serial_run].
Proof. vm_compute. split; reflexivity. Qed.

(** The failures the loop does recover from: after a timeout of the first
    sample the second one is tested and reported. *)
Example timeout_is_skipped :
  let w := start two_samples
             [Expired; Exited 0 (report "3.0" "10"); Exited 0 (report "2.0" "15")] in
  fst (script_main w) = Ok tt /\
  trace (snd (script_main w)) =
    [Print Banner; Print (Rule true); Print (Found 2); Print Blank;
     Print (Testing 1 2 (lit "a.flac") 50); Print (Rule false);
     Print (ModeStart true); serial_run; Print (Failure Timeout);
     Print (Testing 2 2 (lit "b.flac") 150); Print (Rule false);
     Print (ModeStart true); serial_run; Print (Success 3 10); Sleep 2;
     Print (ModeStart false); parallel_run; Print (Success 2 15);
     Print (SpeedupLine (Flt 1.5)); Print Blank;
     Print (Rule true); Print TableTitle; Print Blank; Print TableHead;
     Print (Rule false); Print (Row (lit "b.flac") 150 3 2 (Flt 1.5));
     Print Blank; Print (Rule true); Print AnalysisTitle; Print Blank;
     Print (BucketLine Medium 1 1.5); Print Blank; Print Finished].
Proof. vm_compute. split; reflexivity. Qed.

(** C4, as stated, fails: without a samples directory the enumeration
    raises nothing, and [main] runs to its end on an empty sample list. *)
Lemma missing_directory_is_not_an_error :
  files (start no_files []) !! SAMPLES_DIR = None /\
  fst (glob_flac SAMPLES_DIR (start no_files [])) = Ok [] /\
  fst (script_main (start no_files [])) = Ok tt.
Proof. vm_compute. repeat split; reflexivity. Qed.

Lemma missing_directory_lists_nothing_witness :
  glob_flac SAMPLES_DIR (start no_files []) = (Ok [], start no_files []) /\
  script_main (start no_files []) =
    (Ok tt, after (start no_files [])
              (List.map Print
                 [Banner; Rule true; Found 0; Blank; Rule true; TableTitle;
                  Blank; TableHead; Rule false; Blank; Rule true;
                  AnalysisTitle; Blank; Blank; Finished])).
Proof.
  apply (missing_directory_lists_nothing ascii_decimal _ scripted scratch permissive
           (start no_files [])).
  reflexivity.
Defined.

(** A directory named like a sample ends the whole run. *)
Example directory_sample_aborts_run :
  let w := start directory_first [Exited 0 (report "3.0" "10")] in
  fst (script_main w) = Raise (IsADirectoryError (sample "a.flac")) /\
  trace (snd (script_main w)) =
    [Print Banner; Print (Rule true); Print (Found 2); Print Blank;
     Print (Testing 1 2 (lit "a.flac") 0); Print (Rule false);
     Print (ModeStart true)].
Proof. vm_compute. split; reflexivity. Qed.


(** A parallel time of zero gives the speed-up [0], not a division. *)
Example zero_parallel_time :
  fst (loop 1 1 [sample "a.flac"] []
         (start one_sample [Exited 0 (report "3.0" "10"); Exited 0 (report "0.00" "15")]))
  = Ok [{| name := lit "a.flac"; size_mb := 50;
           serial_time := Some 3; parallel_time := Some 0;
           serial_speed := Some 10; parallel_speed := Some 15;
           speedup := Int0 |}].
Proof. vm_compute. reflexivity. Qed.

Lemma serial_failure_skips_sample_witness :
  (exists evs,
     trace (snd (turn 1 1 (sample "a.flac") []
                   (start one_sample [Exited 2 []; Exited 0 (report "2.0" "15")])))
       = [] ++ evs /\
     Forall (fun ev => forall cmd, ev = Run cmd -> serial_command cmd) evs) /\
  (forall rs,
     fst (turn 1 1 (sample "a.flac") []
            (start one_sample [Exited 2 []; Exited 0 (report "2.0" "15")])) = Ok rs ->
     rs = []).
Proof.
  apply (serial_failure_skips_sample ascii_decimal _ scripted scratch permissive 1 1
           (sample "a.flac") []
           (start one_sample [Exited 2 []; Exited 0 (report "2.0" "15")])
           (file_of 50)).
  - vm_compute. reflexivity.
  - vm_compute. exact I.
Defined.

Lemma command_line_witness :
  trace (snd (run (sample "a.flac") true (start one_sample [Expired]))) =
    trace (start one_sample [Expired]) ++
    [Run (path_str EXE_PATH :: path_str scratch_dir :: [lit "--serial"])].
Proof.
  apply (proj1 (command_line ascii_decimal _ scripted scratch permissive
                  (sample "a.flac") true (start one_sample [Expired]))).
  vm_compute. reflexivity.
Defined.

(** The command of a parallel run has no flag. *)
Example parallel_run_has_no_flag :
  commands (trace (snd (run (sample "a.flac") false (start one_sample [Expired])))) =
    [[path_str EXE_PATH; path_str scratch_dir]].
Proof. vm_compute. reflexivity. Qed.

(** The sample is removed while its serial run is under way: the copy of
    the parallel run raises, and the loop ends there, before the second
    sample. *)
Lemma copy_failure_escapes_witness :
  let tool := removing (sample "a.flac") in
  let w0 := start two_samples [Exited 0 (report "3.0" "10"); Exited 0 (report "2.0" "15")] in
  let w1 := snd (run_benchmark ascii_decimal tool scratch permissive (sample "a.flac") true
                   (serial_start 2 1 (sample "a.flac") (file_of 50) w0)) in
  let w := after w1 [Print (Success 3 10); Sleep 2; Print (ModeStart false)] in
  fst (copied permissive scratch (sample "a.flac") w)
    = Raise (FileNotFoundError (sample "a.flac")) /\
  fst (sample_loop ascii_decimal tool scratch permissive 2 1
         [sample "a.flac"; sample "b.flac"] [] w0)
    = Raise (FileNotFoundError (sample "a.flac")) /\
  trace (snd (sample_loop ascii_decimal tool scratch permissive 2 1
                [sample "a.flac"; sample "b.flac"] [] w0)) = trace w.
Proof.
  intros tool w0 w1 w.
  assert (fst (copied permissive scratch (sample "a.flac") w)
            = Raise (FileNotFoundError (sample "a.flac"))) as Hc
    by (vm_compute; reflexivity).
  split; [exact Hc|].
  apply (proj1 (proj2 (proj2
           (copy_failure_escapes ascii_decimal _ tool scratch permissive
              (sample "a.flac") w (FileNotFoundError (sample "a.flac")) Hc)))
           2%nat 1%nat [] [sample "b.flac"] [] w0 [] w0 (file_of 50) 3 10
           (firstn 500 (report "3.0" "10")));
    [reflexivity | vm_compute; reflexivity | vm_compute; reflexivity | reflexivity].
Defined.

(** The same at the level of [main]: the run ends in the exception after
    the one command of the serial run. *)
Example vanished_sample_aborts_run :
  let w := start two_samples [Exited 0 (report "3.0" "10"); Exited 0 (report "2.0" "15")] in
  fst (main ascii_decimal (removing (sample "a.flac")) scratch permissive w)
    = Raise (FileNotFoundError (sample "a.flac")) /\
  commands (trace (snd (main ascii_decimal (removing (sample "a.flac")) scratch
                          permissive w)))
    = [command scratch_dir true].
Proof. vm_compute. split; reflexivity. Qed.

(** A sample the script may not read ends the whole run as well, before a
    command is run. *)
Example unreadable_sample_aborts_run :
  let w := start two_samples [Exited 0 (report "3.0" "10"); Exited 0 (report "2.0" "15")] in
  fst (main ascii_decimal scripted scratch unreadable w)
    = Raise (OSError (lit "Permission denied")) /\
  commands (trace (snd (main ascii_decimal scripted scratch unreadable w))) = [].
Proof. vm_compute. split; reflexivity. Qed.

(** The size classes at their borders. *)
Example bucket_borders :
  bucket_of 99 = Small /\ bucket_of 100 = Medium /\
  bucket_of 399 = Medium /\ bucket_of 400 = Large.
Proof. repeat split. Qed.

(** Three records, one in each class: three summaries of one record each,
    with that record's speed-up as the mean, in the order of the classes. *)
Example one_record_per_bucket :
  summaries three_records =
    [BucketLine Small 1 1.5; BucketLine Medium 1 2; BucketLine Large 1 3].
Proof. vm_compute. reflexivity. Qed.

(** *** Instances of the further properties *)

Import Cases.

Lemma extract_metric_never_negative_witness :
  extract (lit "运行时间: -5.5s") (lit "运行时间") = Ok (Some 5.5) /\
  (5.5 <? 0) = false.
Proof.
  split; [vm_compute; reflexivity|].
  apply (extract_metric_never_negative ascii_decimal
           (lit "运行时间: -5.5s") (lit "运行时间") 5.5).
  vm_compute. reflexivity.
Defined.

Lemma copied_sample_returns_witness :
  (exists r, fst (run short true times_out) = Ok r) /\
  trace (snd (run short true times_out)) =
    trace times_out ++ [Run (command scratch_dir true)].
Proof.
  apply (copied_sample_returns ascii_decimal _ scripted scratch permissive short true
           times_out).
  vm_compute. reflexivity.
Defined.

Lemma timeout_iff_expired_witness :
  fst (run short true times_out) = Ok (Error Timeout).
Proof.
  apply (proj2 (timeout_iff_expired ascii_decimal _ scripted scratch permissive short true
                  times_out)).
  vm_compute. reflexivity.
Defined.

Lemma failed_status_is_an_error_witness :
  fst (run short true exits_3) = Ok (Error (Text (CalledProcessError 3))).
Proof.
  apply (failed_status_is_an_error ascii_decimal _ scripted scratch permissive short true
           exits_3 3 (report "1.0" "2")).
  - vm_compute. reflexivity.
  - discriminate.
Defined.

Lemma extractor_exception_is_caught_witness :
  fst (run short true malformed) = Ok (Error (Text (ValueError (lit "1.2.3")))).
Proof.
  apply (extractor_exception_is_caught ascii_decimal _ scripted scratch permissive short
           true malformed (lit "运行时间: 1.2.3") (ValueError (lit "1.2.3"))).
  - vm_compute. reflexivity.
  - left. vm_compute. reflexivity.
Defined.

Lemma silent_success_has_no_metrics_witness :
  fst (run short true silent) = Ok (Metrics None None (firstn 500 (lit "done"))).
Proof.
  apply (silent_success_has_no_metrics ascii_decimal _ scripted scratch permissive short
           true silent (lit "done")).
  - vm_compute. reflexivity.
  - vm_compute. repeat constructor.
Defined.

Lemma files_outside_scratch_witness :
  files (snd (run short true times_out)) !! short = Some (file_of 50).
Proof.
  etransitivity.
  - apply (files_outside_scratch ascii_decimal _ scripted scratch permissive short true
             times_out short).
    vm_compute. reflexivity.
  - vm_compute. reflexivity.
Defined.

Lemma record_of_a_turn_witness :
  [short_record] = [] \/
  exists r, [short_record] = [] ++ [r] /\ name r = path_name short /\
            size_mb r * 1048576 <= st_size (file_of 50) < (size_mb r + 1) * 1048576 /\
            complete r.
Proof.
  apply (record_of_a_turn ascii_decimal _ scripted scratch permissive 1 1 short [] both_succeed
           (file_of 50) [short_record]); vm_compute; reflexivity.
Defined.

Lemma loop_extends_results_witness :
  exists new,
    [short_record] = [] ++ new /\
    List.map name new `sublist_of` List.map path_name [short] /\
    Forall complete new.
Proof.
  apply (loop_extends_results ascii_decimal _ scripted scratch permissive 1 1 [short] []
           both_succeed [short_record]).
  vm_compute. reflexivity.
Defined.

Lemma serial_error_goes_on_witness :
  loop 1 1 [short; short] [] times_out =
  loop 1 2 [short] []
    (after (snd (run short true (serial_start 1 1 short (file_of 50) times_out)))
       [Print (Failure Timeout)]).
Proof.
  apply (serial_error_goes_on ascii_decimal _ scripted scratch permissive 1 1 short [short] []
           times_out
           (snd (run short true (serial_start 1 1 short (file_of 50) times_out)))
           (file_of 50) Timeout); vm_compute; reflexivity.
Defined.

Lemma parallel_error_drops_sample_witness :
  loop 1 1 [short; short] [] parallel_times_out =
  loop 1 2 [short] []
    (after (snd (run short false
                   (after (snd (run short true
                                  (serial_start 1 1 short (file_of 50)
                                     parallel_times_out)))
                      [Print (Success 3 10); Sleep 2; Print (ModeStart false)])))
       [Print (Failure Timeout)]).
Proof.
  apply (parallel_error_drops_sample ascii_decimal _ scripted scratch permissive 1 1 short [short]
           [] parallel_times_out
           (snd (run short true (serial_start 1 1 short (file_of 50) parallel_times_out)))
           (snd (run short false
                   (after (snd (run short true
                                  (serial_start 1 1 short (file_of 50)
                                     parallel_times_out)))
                      [Print (Success 3 10); Sleep 2; Print (ModeStart false)])))
           (file_of 50) 3 10
           (firstn 500 (report "3.0" "10")) Timeout); vm_compute; reflexivity.
Defined.

Lemma vanished_sample_ends_loop_witness :
  loop 1 1 [short; short] [] (start no_files []) =
  (Raise (FileNotFoundError short), start no_files []).
Proof.
  apply (vanished_sample_ends_loop ascii_decimal _ scripted scratch permissive 1 1 short [short] []
           (start no_files [])).
  vm_compute. reflexivity.
Defined.

Lemma parallel_run_follows_cooldown_witness :
  exists evs,
    trace (snd (turn 1 1 short [] both_succeed)) = trace both_succeed ++ evs /\
    forall cmd,
      In cmd (commands evs) -> ~ serial_command cmd ->
      exists pre cs ts vs post,
        evs = pre ++ [Run cs; Print (Success ts vs); Sleep 2;
                      Print (ModeStart false); Run cmd] ++ post /\
        serial_command cs /\ commands pre = [] /\ commands post = [].
Proof.
  apply (parallel_run_follows_cooldown ascii_decimal _ scripted scratch permissive 1 1 short []
           both_succeed (file_of 50)).
  vm_compute. reflexivity.
Defined.

Lemma main_fails_only_in_loop_witness :
  fst (script_main (start directory_first []))
    = Raise (IsADirectoryError (sample "a.flac")) <->
  fst (loop 2 1 [sample "a.flac"; sample "b.flac"] []
         (loop_start [sample "a.flac"; sample "b.flac"] (start directory_first [])))
    = Raise (IsADirectoryError (sample "a.flac")).
Proof.
  apply (main_fails_only_in_loop ascii_decimal _ scripted scratch permissive
           (start directory_first []) [sample "a.flac"; sample "b.flac"]
           (IsADirectoryError (sample "a.flac"))).
  vm_compute. reflexivity.
Defined.

Lemma enumeration_of_samples_witness :
  exists samples,
    glob_flac SAMPLES_DIR (start two_samples []) = (Ok samples, start two_samples []) /\
    NoDup samples /\
    Sorted (fun a b => path_leb a b = true) samples /\
    forall p, In p samples <->
              is_Some (files (start two_samples []) !! p) /\
              exists c, p = SAMPLES_DIR ++ [c] /\ endswith c (lit ".flac") = true.
Proof.
  apply (enumeration_of_samples (list proc_outcome) SAMPLES_DIR (start two_samples [])
           directory); vm_compute; reflexivity.
Defined.

Lemma speedup_never_negative_witness :
  Forall (fun r => match speedup r with
                   | Int0 => True
                   | Flt x => (x <? 0) = false
                   end) [short_record].
Proof.
  apply (speedup_never_negative ascii_decimal _ scripted scratch permissive 1 1 [short]
           both_succeed [short_record]).
  vm_compute. reflexivity.
Defined.

Lemma printed_average_never_negative_witness :
  exists evs,
    analysis [short_record] (start no_files []) = (Ok tt, after (start no_files []) evs) /\
    Forall (fun ev => match ev with
                      | Print (BucketLine _ _ avg) => (avg <? 0) = false
                      | _ => True
                      end) evs.
Proof.
  apply (printed_average_never_negative ascii_decimal _ scripted scratch permissive 1 1 [short]
           both_succeed (start no_files []) [short_record]).
  vm_compute. reflexivity.
Defined.

End Runs.
